(** * The MDX runtime shim of the bundled documentation chunk

    Webpack module 3905 of [assets/js/00634dd8.062cee42.js] is the
    [@mdx-js/react] runtime: the shallow object merge [i], the
    property filter [l], the context reader [p], the provider [c]
    (exported as [Zo]), the table of built-in components [d], the
    component [u] ([MDXCreateElement]) and the element factory [f]
    (exported as [kt]).

    The functions are embedded over an explicit object store: a
    JavaScript object is a reference into the store, a property bag is a
    finite map from property names to values, and every function is a
    state-and-error computation over the store. *)

From Stdlib Require Import Ascii.
From stdpp Require Import base strings gmap list pretty.

Set Default Proof Using "Type".

(** ** JavaScript values *)

(** References into the object store. *)
Definition loc := nat.

(** Objects of this module and of the host that are not plain property
    bags: the component [u] (a [forwardRef] object), the provider of the
    context [s], React's [Fragment] symbol, and [Object.prototype]. *)
Inductive host_object :=
| MDXCreateElement
| Provider
| Fragment
| ObjectPrototype.

(** The values the model covers.  Numbers are the integer-valued ones;
    a function is opaque and known by its name; an array and an element
    description are immutable once built. *)
#[warnings="-register-all"]
Inductive value :=
| VUndefined
| VNull
| VBool (b : bool)
| VNum (n : Z)
| VStr (s : string)
| VFun (name : string)
| VRef (r : loc)
| VHost (x : host_object)
| VArray (items : list value)
| VElement (type config : value) (children : list value).

(** A plain object: its own enumerable string-keyed data properties.
    The order in which a loop enumerates them is not kept: every loop of
    the module writes one property per key, so what it builds does not
    depend on the order. *)
Abbreviation obj := (gmap string value).

(** The object store grows at the end: the reference of a new object is
    the current length. *)
Abbreviation store := (list obj).

(** [!x] is false exactly on the falsy values. *)
Definition truthy (v : value) : bool :=
  match v with
  | VUndefined | VNull => false
  | VBool b => b
  | VNum n => negb (n =? 0)%Z
  | VStr s => negb (String.eqb s "")
  | _ => true
  end.

(** [null == x] *)
Definition nullish (v : value) : bool :=
  match v with
  | VUndefined | VNull => true
  | _ => false
  end.

(** ["function" == typeof x] *)
Definition typeof_function (v : value) : bool :=
  match v with
  | VFun _ => true
  | _ => false
  end.

(** ["string" == typeof x] *)
Definition typeof_string (v : value) : bool :=
  match v with
  | VStr _ => true
  | _ => false
  end.

(** [x || y] on values already computed. *)
Definition or_else (x y : value) : value := if truthy x then x else y.

(** ** Outcomes and computations *)

Inductive exn :=
| TypeError
| Thrown (v : value).

Inductive result (A : Type) :=
| Ok (a : A)
| Throw (e : exn).
Arguments Ok {A} a.
Arguments Throw {A} e.

Definition M (A : Type) : Type := store → result (A * store).

Definition ret {A} (a : A) : M A := λ h, Ok (a, h).

Definition bind {A B} (m : M A) (k : A → M B) : M B :=
  λ h, match m h with
       | Ok (a, h') => k a h'
       | Throw e => Throw e
       end.

Definition throw {A} (e : exn) : M A := λ _, Throw e.

Notation "x <- m ;; k" := (bind m (λ x, k))
  (at level 100, m at next level, right associativity).
Notation "m ;;; k" := (bind m (λ _, k))
  (at level 100, right associativity).

(** [xs.forEach(body)] and the [for] loops over a list of keys. *)
Fixpoint forEach {A} (xs : list A) (body : A → M unit) : M unit :=
  match xs with
  | [] => ret tt
  | x :: xs' => body x ;;; forEach xs' body
  end.

(** ** The host

    What the bundle takes from its JavaScript host and does not define:
    the members of receivers that are not plain objects (wrapper
    prototypes, functions, exotic objects), the text [ToString] gives a
    function, an object or a number beyond the safe integers (none
    where that conversion throws its [TypeError]), the calls of user
    functions, and one feature test.  A user function reads the store
    and may allocate; the new objects are appended to the store.  A
    conversion to string does not depend on the store. *)
Record Host := {
  host_get : value → string → value;
  host_own : value → obj;
  host_to_string : value → option string;
  host_call : string → list value → store → result (value * list obj);
  has_getOwnPropertyDescriptors : bool
}.

(** The members every plain object inherits (ECMAScript, with Annex B). *)
Definition Object_prototype : obj :=
  list_to_map
    [ ("constructor", VFun "Object");
      ("__defineGetter__", VFun "__defineGetter__");
      ("__defineSetter__", VFun "__defineSetter__");
      ("hasOwnProperty", VFun "hasOwnProperty");
      ("__lookupGetter__", VFun "__lookupGetter__");
      ("__lookupSetter__", VFun "__lookupSetter__");
      ("isPrototypeOf", VFun "isPrototypeOf");
      ("propertyIsEnumerable", VFun "propertyIsEnumerable");
      ("toString", VFun "toString");
      ("valueOf", VFun "valueOf");
      ("__proto__", VHost ObjectPrototype);
      ("toLocaleString", VFun "toLocaleString") ].

(** [x[k]] on a plain object with own properties [x]: the own property,
    else the inherited one, else [undefined]. *)
Definition lookup_chain (x : obj) (k : string) : value :=
  match x !! k with
  | Some v => v
  | None => default VUndefined (Object_prototype !! k)
  end.

(** [k in x] on a plain object. *)
Definition in_chain (x : obj) (k : string) : bool :=
  bool_decide (is_Some (x !! k)) || bool_decide (is_Some (Object_prototype !! k)).

(** The object a reference denotes. *)
Definition contents (h : store) (r : loc) : obj := default ∅ (h !! r).

(** An object literal. *)
Definition new_object (x : obj) : M loc := λ h, Ok (length h, h ++ [x]).

(** The own data property [k] of the object [x] becomes [v]. *)
Definition put (x : loc) (k : string) (v : value) : M unit :=
  λ h, Ok (tt, <[x := <[k := v]> (contents h x)]> h).

(** [Object.defineProperty(x, k, {value: v, enumerable, configurable,
    writable})] *)
Definition defineProperty (x : loc) (k : string) (v : value) : M unit :=
  put x k v.

(** [x[k] = v] on an object the module has just made: an own data
    property, except under the key [__proto__], where the setter that
    every object inherits runs instead and no own property is made.
    (The setter replaces the prototype when [v] is an object or [null];
    the store keeps no prototypes, and of an object it has assigned to
    the module reads own properties only.) *)
Definition assign (x : loc) (k : string) (v : value) : M unit :=
  if String.eqb k "__proto__" then ret tt else put x k v.

(** [Object.defineProperties(x, Object.getOwnPropertyDescriptors(t))],
    given the own properties [ds] of [t]. *)
Definition defineProperties (x : loc) (ds : obj) : M unit :=
  λ h, Ok (tt, <[x := ds ∪ contents h x]> h).

(** [React.createElement(type, config, ...children)]: the description
    of an element, handed to the host's rendering pipeline. *)
Definition createElement (type config : value) (children : list value) : M value :=
  ret (VElement type config children).

(** [xs[k]] on an array, [undefined] past its end. *)
Definition nth_arg (xs : list value) (k : nat) : value :=
  default VUndefined (xs !! k).

(** [React.createElement.apply(null, args)] *)
Definition createElement_apply (args : list value) : M value :=
  createElement (nth_arg args 0) (nth_arg args 1) (drop 2 args).

(** [xs[k] = v] on an array: past the end the array grows, the gap
    filled with holes. *)
Definition array_set (xs : list value) (k : nat) (v : value) : list value :=
  if decide (k < length xs) then <[k := v]> xs
  else xs ++ replicate (k - length xs) VUndefined ++ [v].

(** The text [ToString] gives a primitive: the decimal digits for a
    number among the safe integers, where they are exact. *)
Definition primitive_string (v : value) : option string :=
  match v with
  | VUndefined => Some "undefined"
  | VNull => Some "null"
  | VBool true => Some "true"
  | VBool false => Some "false"
  | VNum n => if decide (Z.abs n ≤ 2 ^ 53)%Z then Some (pretty n) else None
  | VStr s => Some s
  | _ => None
  end.

Module M3905.
Section Runtime.
Context (host : Host).

(** [ToString], as [concat] and a computed property key apply it:
    the text of a primitive; a [TypeError] (no text) on a symbol; for
    the rest what the host gives. *)
Definition to_string (v : value) : option string :=
  match primitive_string v with
  | Some s => Some s
  | None =>
      match v with
      | VHost Fragment => None
      | _ => host_to_string host v
      end
  end.

(** A conversion to string inside a computation. *)
Definition to_key (v : value) : M string :=
  λ h, match to_string v with
       | Some k => Ok (k, h)
       | None => Throw TypeError
       end.

(** The own enumerable string-keyed properties of [Object(v)]. *)
Definition own_props (v : value) : M obj :=
  λ h, Ok (match v with
           | VRef r => contents h r
           | VUndefined | VNull => ∅
           | _ => host_own host v
           end, h).

(** [v[k]]: a [TypeError] on [undefined] and [null]. *)
Definition get (v : value) (k : string) : M value :=
  λ h, match v with
       | VUndefined | VNull => Throw TypeError
       | VRef r => Ok (lookup_chain (contents h r) k, h)
       | _ => Ok (host_get host v k, h)
       end.

(** [Object.keys(v)] for an object [v], also the keys a [for]-[in] loop
    over [v] visits (none when [v] is [null] or [undefined], which only
    such a loop can meet). *)
Definition keys (v : value) : M (list string) :=
  ps <- own_props v ;; ret (map_to_list ps).*1.

(** [hasOwnProperty.call(v, k)] *)
Definition hasOwnProperty (v : value) (k : string) : M bool :=
  ps <- own_props v ;; ret (bool_decide (is_Some (ps !! k))).

(** [fn(...args)] *)
Definition call (fn : value) (args : list value) : M value :=
  λ h, match fn with
       | VFun name =>
           match host_call host name args h with
           | Ok (v, ext) => Ok (v, h ++ ext)
           | Throw e => Throw e
           end
       | _ => Throw TypeError
       end.

(** [function o(e,n,t){return n in e?Object.defineProperty(e,n,
    {value:t,enumerable:!0,configurable:!0,writable:!0}):e[n]=t,e}] *)
Definition o (e : loc) (n : string) (t : value) : M loc :=
  own <- own_props (VRef e) ;;
  (if in_chain own n then defineProperty e n t else assign e n t) ;;;
  ret e.

(** [function a(e,n){var t=Object.keys(e); ... return t}]: the string
    keys; symbol-keyed properties are outside the model. *)
Definition a (e : value) (n : bool) : M (list string) := keys e.

(** One turn of the loop of [i], for the argument at index [n]. *)
Definition i_turn (e : loc) (n : nat) (arg : value) : M unit :=
  t <- (if nullish arg then r <- new_object ∅ ;; ret (VRef r) else ret arg) ;;
  if Nat.odd n then
    ks <- a t true ;;
    forEach ks (λ n, v <- get t n ;; o e n v ;;; ret tt)
  else if has_getOwnPropertyDescriptors host then
    ds <- own_props t ;;
    defineProperties e ds
  else
    ks <- a t false ;;
    forEach ks (λ n,
      ds <- own_props t ;;
      match ds !! n with
      | Some v => defineProperty e n v
      | None => throw TypeError
      end).

Fixpoint i_from (e : loc) (n : nat) (arguments : list value) : M unit :=
  match arguments with
  | [] => ret tt
  | arg :: rest => i_turn e n arg ;;; i_from e (S n) rest
  end.

(** [function i(e){for(var n=1;n<arguments.length;n++){...}return e}]:
    [e] is the target, [sources] are [arguments[1..]]. *)
Definition i (e : loc) (sources : list value) : M loc :=
  i_from e 1 sources ;;; ret e.

(** The inner function of [l]: the own properties of [e] whose key is
    not in [n], copied into a new object. *)
Definition l_inner (e : value) (n : list string) : M loc :=
  if nullish e then new_object ∅
  else
    o <- new_object ∅ ;;
    a <- keys e ;;
    forEach a (λ t,
      if bool_decide (t ∈ n) then ret tt
      else v <- get e t ;; assign o t v) ;;;
    ret o.

(** [function l(e,n){if(null==e)return{}; var o=(...)(e,n); ...
    return o}]; the pass over symbol keys is outside the model. *)
Definition l (e : value) (n : list string) : M loc :=
  if nullish e then new_object ∅ else l_inner e n.

(** [p=function(e){var n=r.useContext(s),t=n;return e&&(t="function"==
    typeof e?e(n):i(i({},n),e)),t}]; [n] is what [useContext(s)]
    reads. *)
Definition p (n : value) (e : value) : M value :=
  if truthy e then
    if typeof_function e then call e [n]
    else
      x <- new_object ∅ ;;
      y <- i x [n] ;;
      z <- i y [e] ;;
      ret (VRef z)
  else ret n.

(** [c=function(e){var n=p(e.components);return r.createElement(
    s.Provider,{value:n},e.children)}], exported as [Zo]. *)
Definition c (useContext_s : value) (e : value) : M value :=
  components <- get e "components" ;;
  n <- p useContext_s components ;;
  props <- new_object {[ "value" := n ]} ;;
  children <- get e "children" ;;
  createElement (VHost Provider) (VRef props) [children].

(** [d={inlineCode:"code",wrapper:function(e){...}}] *)
Definition d : obj :=
  {[ "inlineCode" := VStr "code"; "wrapper" := VFun "wrapper" ]}.

(** [function(e){var n=e.children;return r.createElement(r.Fragment,
    {},n)}], the value of [d.wrapper]. *)
Definition wrapper (e : value) : M value :=
  n <- get e "children" ;;
  props <- new_object ∅ ;;
  createElement (VHost Fragment) (VRef props) [n].

(** The keys [u] strips from its props. *)
Definition reserved : list string :=
  ["components"; "mdxType"; "originalType"; "parentName"].

(** [u["".concat(s,".").concat(f)]||u[f]||d[f]||a], read left to
    right: the key is built before [u] is looked into.  The second and
    third lookups convert [f] to a property key; a symbol, which is a
    key as it is, never gets there, since [concat] has thrown on it. *)
Definition choose (u s f a : value) : M value :=
  ks <- to_key s ;;
  kf <- to_key f ;;
  m1 <- get u (ks ++ "." ++ kf) ;;
  if truthy m1 then ret m1
  else
    kf <- to_key f ;;
    m2 <- get u kf ;;
    if truthy m2 then ret m2
    else
      kf <- to_key f ;;
      ret (or_else (lookup_chain d kf) a).

(** [u=r.forwardRef((function(e,n){...}))], [MDXCreateElement]: [e]
    are the props, [n] is the ref, [useContext_s] is the context the
    enclosing provider supplies. *)
Definition u (useContext_s : value) (e n : value) : M value :=
  t <- get e "components" ;;
  o <- get e "mdxType" ;;
  a <- get e "originalType" ;;
  s <- get e "parentName" ;;
  c <- l e reserved ;;
  u <- p useContext_s t ;;
  let f := o in
  m <- choose u s f a ;;
  if truthy t then
    x <- new_object {[ "ref" := n ]} ;;
    y <- i x [VRef c] ;;
    e1 <- new_object ∅ ;;
    e2 <- new_object {[ "components" := t ]} ;;
    z <- i y [VRef e1; VRef e2] ;;
    createElement m (VRef z) []
  else
    x <- new_object {[ "ref" := n ]} ;;
    y <- i x [VRef c] ;;
    createElement m (VRef y) [].

(** [function f(e,n){var t=arguments, ...}], exported as [kt]. *)
Definition f (arguments : list value) : M value :=
  let t := arguments in
  let e := nth_arg t 0 in
  let n := nth_arg t 1 in
  o <- (if truthy n then get n "mdxType" else ret n) ;;
  if typeof_string e || truthy o then
    let a := length t in
    let i := replicate a VUndefined in
    let i := array_set i 0 (VHost MDXCreateElement) in
    l <- new_object ∅ ;;
    ks <- keys n ;;
    forEach ks (λ s,
      own <- hasOwnProperty n s ;;
      if own then v <- get n s ;; assign l s v else ret tt) ;;;
    assign l "originalType" e ;;;
    assign l "mdxType" (if typeof_string e then e else o) ;;;
    let i := array_set i 1 (VRef l) in
    let i := foldl (λ i p, array_set i p (nth_arg t p)) i (seq 2 (a - 2)) in
    createElement_apply i
  else createElement_apply t.

Definition Zo := c.
Definition kt := f.

End Runtime.
End M3905.

(** ** The host's side of rendering

    React is not part of the bundle.  What the end-to-end scenario needs
    of it is how an element whose type is [MDXCreateElement] is
    rendered: the props are the own properties of the element's config
    without React's reserved names, copied by assignment, the children
    are stored under [children] (alone when there is one, as an array
    otherwise), and the render function of the [forwardRef] object
    receives the props and the ref. *)
Module React.
Section Rendering.
Context (host : Host).

Definition RESERVED_PROPS : list string :=
  ["key"; "ref"; "__self"; "__source"].

Definition element_props (config : value) (children : list value) : M value :=
  props <- new_object ∅ ;;
  ks <- M3905.keys host config ;;
  forEach ks (λ k,
    if bool_decide (k ∈ RESERVED_PROPS) then ret tt
    else v <- M3905.get host config k ;; assign props k v) ;;;
  match children with
  | [] => ret tt
  | [child] => assign props "children" child
  | _ => assign props "children" (VArray children)
  end ;;;
  ret (VRef props).

Definition element_ref (config : value) : M value :=
  if nullish config then ret VNull
  else
    r <- M3905.get host config "ref" ;;
    ret (match r with VUndefined => VNull | _ => r end).

(** Rendering one element under the context value [useContext_s]. *)
Definition render (useContext_s : value) (element : value) : M value :=
  match element with
  | VElement (VHost MDXCreateElement) config children =>
      props <- element_props config children ;;
      ref <- element_ref config ;;
      M3905.u host useContext_s props ref
  | _ => ret element
  end.

End Rendering.
End React.

(** A host with nothing beyond plain objects, whose user functions
    return [undefined]. *)
Definition plain_host : Host :=
  {| host_get := λ _ _, VUndefined;
     host_own := λ _, ∅;
     host_to_string := λ _, Some "[object Object]";
     host_call := λ _ _ _, Ok (VUndefined, []);
     has_getOwnPropertyDescriptors := true |}.

(** A host whose user functions return a new empty object. *)
Definition allocating_host : Host :=
  {| host_get := λ _ _, VUndefined;
     host_own := λ _, ∅;
     host_to_string := λ _, Some "[object Object]";
     host_call := λ _ _ h, Ok (VRef (length h), [∅]);
     has_getOwnPropertyDescriptors := false |}.

(** The renderer an outcome describes, if it is an element. *)
Definition renderer_of (r : result (value * store)) : option value :=
  match r with
  | Ok (VElement type _ _, _) => Some type
  | _ => None
  end.

(** The props object an outcome's element carries. *)
Definition props_of (r : result (value * store)) : option obj :=
  match r with
  | Ok (VElement _ (VRef x) _, h) => h !! x
  | _ => None
  end.

(** What can be a renderer: a host tag, a function component, or an
    object component. *)
Definition is_renderer (v : value) : bool :=
  match v with
  | VStr s => negb (String.eqb s "")
  | VFun _ | VRef _ | VHost _ => true
  | _ => false
  end.

(** The properties of [x] whose key is not in [ns]. *)
Definition without (ns : list string) (x : obj) : obj :=
  filter (λ kv, kv.1 ∉ ns) x.

(** A reference held by [v] points into the store. *)
Definition valid (h : store) (v : value) : Prop :=
  match v with
  | VRef r => r < length h
  | _ => True
  end.

(** The renderer the lookup [U[ks.kf] || U[kf] || d[kf] || a] settles
    on, over the own properties [U] of the components object and the
    texts [ks] and [kf] of [parentName] and [mdxType]. *)
Definition pick (U : obj) (ks kf : string) (a : value) : value :=
  or_else (lookup_chain U (ks ++ "." ++ kf))
    (or_else (lookup_chain U kf)
       (or_else (lookup_chain M3905.d kf) a)).

(** What a copy by assignment carries over from [x]: every own
    property but one named [__proto__]. *)
Definition assigned (x : obj) : obj := delete "__proto__" x.

(** The props [u] hands to the renderer it chose, from its own props
    [props], its ref [n] and the [components] prop [t]. *)
Definition forwarded (props : obj) (n t : value) : obj :=
  let base := without M3905.reserved (assigned props) ∪ {[ "ref" := n ]} in
  if truthy t then <[ "components" := t ]> base else base.

(** The [components] prop of [props] is falsy ([ov] is then empty), or
    is the plain object with own properties [ov]. *)
Definition components_of (h : store) (props ov : obj) : Prop :=
  (truthy (lookup_chain props "components") = false ∧ ov = ∅) ∨
  (∃ ro, lookup_chain props "components" = VRef ro ∧ h !! ro = Some ov).

(** A value whose members are the host's: neither [null], [undefined]
    nor a plain object. *)
Definition by_host (v : value) : Prop :=
  nullish v = false ∧ ∀ r, v ≠ VRef r.

(** The [components] prop of [props] is absent ([ov] is then empty), or
    is the plain object with own properties [ov]. *)
Definition override_of (h : store) (props ov : obj) : Prop :=
  (props !! "components" = None ∧ ov = ∅) ∨
  (∃ ro, props !! "components" = Some (VRef ro) ∧ h !! ro = Some ov).

(** A property name with a dot in it. *)
Fixpoint has_dot (s : string) : bool :=
  match s with
  | EmptyString => false
  | String ch s' => Ascii.eqb ch "."%char || has_dot s'
  end.

(** The stores of the examples. *)
Definition Scoped : value := VFun "Scoped".
Definition Override : value := VFun "Override".
Definition Plain : value := VFun "Plain".

Definition code_in_pre (components : option value) : obj :=
  let props : obj :=
    {[ "mdxType" := VStr "code"; "originalType" := VStr "code";
       "parentName" := VStr "pre" ]} in
  match components with
  | Some t => <[ "components" := t ]> props
  | None => props
  end.

(** The props React derives from an element's config [x] and its
    children. *)
Definition with_children (children : list value) (x : obj) : obj :=
  match children with
  | [] => x
  | [child] => <[ "children" := child ]> x
  | _ => <[ "children" := VArray children ]> x
  end.

(** The config [f] builds for the string tag [tag] from the props [x]. *)
Definition mdx_config (tag : string) (x : obj) : obj :=
  <[ "mdxType" := VStr tag ]> (<[ "originalType" := VStr tag ]> x).

Definition two_objects : store :=
  [ {[ "a" := VNum 1; "b" := VNum 2 ]}; {[ "b" := VNum 3; "c" := VNum 4 ]} ].

(** A host without [Object.getOwnPropertyDescriptors]. *)
Definition legacy_host : Host :=
  {| host_get := λ _ _, VUndefined;
     host_own := λ _, ∅;
     host_to_string := λ _, Some "[object Object]";
     host_call := λ _ _ _, Ok (VUndefined, []);
     has_getOwnPropertyDescriptors := false |}.

Definition Heading : value := VFun "Heading".
Definition Callout : value := VFun "Callout".

(** A host whose user functions return a new object that maps [p] to
    [Heading]. *)
Definition replacing_host : Host :=
  {| host_get := λ _ _, VUndefined;
     host_own := λ _, ∅;
     host_to_string := λ _, Some "[object Object]";
     host_call := λ _ _ h, Ok (VRef (length h), [{[ "p" := Heading ]}]);
     has_getOwnPropertyDescriptors := true |}.

(** The objects of the further examples: a context, an override, the
    props of a paragraph without and with the override, the props of a
    provider, and the props of a paragraph with a function as
    override. *)
Definition sample_context : obj := {[ "h1" := Heading; "undefined.em" := Heading ]}.
Definition sample_override : obj := {[ "p" := Callout ]}.
Definition props_of_tag (tag : string) : obj :=
  {[ "mdxType" := VStr tag; "originalType" := VStr tag;
     "className" := VStr "lead" ]}.
Definition sample_provider : obj :=
  {[ "components" := VRef 1; "children" := VStr "text" ]}.
Definition sample_store : store :=
  [ sample_context; sample_override; props_of_tag "p";
    <[ "components" := VRef 1 ]> (props_of_tag "p"); sample_provider;
    <[ "components" := VFun "merge" ]> (props_of_tag "p");
    {[ "mdxType" := VStr "Note"; "className" := VStr "lead" ]} ].

(** ** Reasoning about computations *)

Lemma bind_Ok {A B} (m : M A) (k : A → M B) h x h1 :
  m h = Ok (x, h1) → (x <- m ;; k x) h = k x h1.
Proof. intros E. unfold bind. by rewrite E. Qed.

(** Run the first computation of a sequence by the equation [E]. *)
Tactic Notation "run" uconstr(E) := rewrite (bind_Ok _ _ _ _ _ E).

Section Specs.
Context (host : Host).

Lemma contents_Some (h : store) r x : h !! r = Some x → contents h r = x.
Proof. intros E. unfold contents. by rewrite E. Qed.

Lemma contents_lt (h : store) r : r < length h → h !! r = Some (contents h r).
Proof.
  intros Hlt. destruct (lookup_lt_is_Some_2 h r Hlt) as [x E].
  by rewrite (contents_Some _ _ _ E).
Qed.

Lemma contents_insert_eq (h : store) r x :
  r < length h → contents (<[r := x]> h) r = x.
Proof. intros Hlt. apply contents_Some. by apply list_lookup_insert_eq. Qed.

Lemma contents_insert_ne (h : store) r r' x :
  r ≠ r' → contents (<[r := x]> h) r' = contents h r'.
Proof. intros Hne. unfold contents. by rewrite list_lookup_insert_ne. Qed.

Lemma contents_app_l (h ext : store) r :
  r < length h → contents (h ++ ext) r = contents h r.
Proof. intros Hlt. unfold contents. by rewrite lookup_app_l. Qed.

Lemma contents_new (h : store) x : contents (h ++ [x]) (length h) = x.
Proof. apply contents_Some. by apply list_lookup_middle. Qed.

Lemma insert_new (h : store) (x y : obj) :
  <[length h := y]> (h ++ [x]) = h ++ [y].
Proof.
  replace (length h) with (length h + 0) at 1 by lia.
  by rewrite insert_app_r.
Qed.

Lemma contents_at (h ext : store) k :
  contents (h ++ ext) (length h + k) = default ∅ (ext !! k).
Proof.
  unfold contents. rewrite lookup_app_r by lia.
  by replace (length h + k - length h) with k by lia.
Qed.

Lemma insert_at (h ext : store) (y : obj) :
  <[length h := y]> (h ++ ext) = h ++ <[0 := y]> ext.
Proof.
  replace (length h) with (length h + 0) at 1 by lia.
  by rewrite insert_app_r.
Qed.

(** A loop whose every turn rewrites the object [e] by [step]. *)
Lemma forEach_update (e : loc) (step : string → obj → obj)
    (inv : store → Prop) (body : string → M unit) ks :
  (∀ h1 x, inv h1 → inv (<[e := x]> h1)) →
  ∀ h,
  e < length h → inv h →
  (∀ k h1, k ∈ ks → e < length h1 → inv h1 →
     body k h1 = Ok (tt, <[e := step k (contents h1 e)]> h1)) →
  forEach ks body h =
    Ok (tt, <[e := foldl (λ acc k, step k acc) (contents h e) ks]> h).
Proof.
  intros Hinv. induction ks as [|k ks IH]; intros h Hlt Hh Hbody; simpl.
  - unfold ret. f_equal. f_equal. symmetry. apply list_insert_id.
    by apply contents_lt.
  - run (Hbody k h (list_elem_of_here _ _) Hlt Hh).
    rewrite IH.
    + rewrite contents_insert_eq by done. by rewrite list_insert_insert_eq.
    + by rewrite length_insert.
    + by apply Hinv.
    + intros k' h1 Hk'. apply Hbody. apply elem_of_cons. by right.
Qed.

(** Reading a fold of guarded inserts. *)
Lemma lookup_foldl_insert (P : string → bool) (g : string → value) ks :
  ∀ (init : obj) k,
  foldl (λ acc k, if P k then <[k := g k]> acc else acc) init ks !! k =
    if bool_decide (k ∈ ks) && P k then Some (g k) else init !! k.
Proof.
  induction ks as [|k0 ks IH]; intros init k; simpl; [done|].
  rewrite IH.
  assert (Hstep : (if P k0 then <[k0 := g k0]> init else init) !! k =
                  if bool_decide (k = k0) && P k then Some (g k) else init !! k).
  { destruct (decide (k = k0)) as [->|Hne].
    - rewrite bool_decide_eq_true_2 by done. simpl.
      destruct (P k0); [by rewrite lookup_insert_eq|done].
    - rewrite bool_decide_eq_false_2 by done. simpl.
      destruct (P k0); [by rewrite lookup_insert_ne|done]. }
  rewrite Hstep.
  destruct (P k); rewrite ?andb_true_r, ?andb_false_r; [|done].
  rewrite (bool_decide_ext (k ∈ k0 :: ks) (k = k0 ∨ k ∈ ks))
    by apply elem_of_cons.
  repeat case_bool_decide; (done || tauto).
Qed.

Lemma elem_of_keys (x : obj) k : k ∈ (map_to_list x).*1 ↔ is_Some (x !! k).
Proof.
  rewrite list_elem_of_fmap. split.
  - intros [[k' v] [-> Hin]]. apply elem_of_map_to_list in Hin. by exists v.
  - intros [v Hv]. exists (k, v). split; [done|]. by apply elem_of_map_to_list.
Qed.

Lemma lookup_chain_own (x : obj) k v : x !! k = Some v → lookup_chain x k = v.
Proof. intros E. unfold lookup_chain. by rewrite E. Qed.

(** Copying every own property of [src] over [init] is [src ∪ init]. *)
Lemma foldl_copy_all (src init : obj) :
  foldl (λ acc k, <[k := lookup_chain src k]> acc) init (map_to_list src).*1
  = src ∪ init.
Proof.
  apply map_eq. intros k.
  rewrite (lookup_foldl_insert (λ _, true) (lookup_chain src)).
  rewrite andb_true_r, lookup_union.
  destruct (src !! k) as [v|] eqn:E.
  - rewrite bool_decide_eq_true_2 by (apply elem_of_keys; eauto).
    rewrite (lookup_chain_own _ _ _ E). by destruct (init !! k).
  - rewrite bool_decide_eq_false_2.
    + by destruct (init !! k).
    + rewrite elem_of_keys, E. by intros [? ?].
Qed.

Lemma lookup_without ns (x : obj) k :
  without ns x !! k = if bool_decide (k ∈ ns) then None else x !! k.
Proof.
  unfold without. rewrite map_lookup_filter.
  destruct (x !! k) as [v|]; simpl; [|by case_bool_decide].
  case_guard; case_bool_decide; simpl in *; done.
Qed.

Lemma lookup_assigned (x : obj) k :
  assigned x !! k = if String.eqb k "__proto__" then None else x !! k.
Proof.
  unfold assigned. destruct (String.eqb_spec k "__proto__") as [->|Hne].
  - by rewrite lookup_delete_eq.
  - by rewrite lookup_delete_ne.
Qed.

(** Copying by assignment the own properties of [src] outside [ns] into
    an empty object gives [without ns (assigned src)]. *)
Lemma foldl_assign_without ns (src : obj) :
  foldl (λ acc k, if negb (bool_decide (k ∈ ns)) && negb (String.eqb k "__proto__")
                  then <[k := lookup_chain src k]> acc else acc)
        ∅ (map_to_list src).*1
  = without ns (assigned src).
Proof.
  apply map_eq. intros k.
  rewrite (lookup_foldl_insert
             (λ k, negb (bool_decide (k ∈ ns)) && negb (String.eqb k "__proto__"))
             (lookup_chain src)).
  rewrite lookup_without, lookup_assigned, lookup_empty.
  destruct (src !! k) as [v|] eqn:E.
  - rewrite bool_decide_eq_true_2 by (apply elem_of_keys; eauto).
    rewrite (lookup_chain_own _ _ _ E).
    case_bool_decide; [done|]. by destruct (String.eqb k "__proto__").
  - rewrite (bool_decide_eq_false_2 (k ∈ _)).
    + case_bool_decide; [done|]. by destruct (String.eqb k "__proto__").
    + rewrite elem_of_keys, E. by intros [? ?].
Qed.

Lemma without_nil (x : obj) : without [] x = x.
Proof.
  apply map_eq. intros k. rewrite lookup_without.
  rewrite bool_decide_eq_false_2; [done|]. apply not_elem_of_nil.
Qed.

(** One assignment in a copy loop, as a step on the target. *)
Lemma assign_run x k v h :
  x < length h →
  assign x k v h
  = Ok (tt, <[x := (if negb (String.eqb k "__proto__")
                    then <[k := v]> (contents h x) else contents h x)]> h).
Proof.
  intros Hlt. unfold assign, put, ret.
  destruct (String.eqb k "__proto__"); simpl; [|done].
  f_equal. f_equal. symmetry. apply list_insert_id. by apply contents_lt.
Qed.

(** *** The helpers [o], [i] and [l] *)

Lemma get_ref_run r k h :
  M3905.get host (VRef r) k h = Ok (lookup_chain (contents h r) k, h).
Proof. done. Qed.

Lemma in_chain_proto (x : obj) : in_chain x "__proto__" = true.
Proof. unfold in_chain. by rewrite orb_true_r. Qed.

Lemma o_run e n t h :
  M3905.o host e n t h = Ok (e, <[e := <[n := t]> (contents h e)]> h).
Proof.
  unfold M3905.o, M3905.own_props, defineProperty, bind, ret.
  destruct (in_chain _ _) eqn:Hin; [done|].
  unfold assign. destruct (String.eqb_spec n "__proto__") as [->|Hne]; [|done].
  by rewrite in_chain_proto in Hin.
Qed.

(** One turn of [i] over a plain object other than the target. *)
Lemma i_turn_ref e n r h :
  e < length h → r ≠ e →
  M3905.i_turn host e n (VRef r) h
  = Ok (tt, <[e := contents h r ∪ contents h e]> h).
Proof.
  intros Hlt Hne. unfold M3905.i_turn. simpl.
  rewrite (bind_Ok _ _ h (VRef r) h) by done.
  set (src := contents h r).
  assert (Hinv : ∀ h1 x, contents h1 r = src → contents (<[e := x]> h1) r = src).
  { intros h1 x E. rewrite contents_insert_ne; [done|congruence]. }
  destruct (Nat.odd n); [|destruct (has_getOwnPropertyDescriptors host)].
  - unfold M3905.a, M3905.keys.
    rewrite (bind_Ok _ _ h (map_to_list src).*1 h) by done.
    rewrite (forEach_update e (λ k acc, <[k := lookup_chain src k]> acc)
               (λ h1, contents h1 r = src)); [|done..|].
    + by rewrite foldl_copy_all.
    + intros k h1 _ _ E.
      rewrite (bind_Ok _ _ h1 (lookup_chain src k) h1)
        by (unfold M3905.get; by rewrite E).
      unfold bind. by rewrite o_run.
  - rewrite (bind_Ok _ _ h src h) by done. done.
  - unfold M3905.a, M3905.keys.
    rewrite (bind_Ok _ _ h (map_to_list src).*1 h) by done.
    rewrite (forEach_update e (λ k acc, <[k := lookup_chain src k]> acc)
               (λ h1, contents h1 r = src)); [|done..|].
    + by rewrite foldl_copy_all.
    + intros k h1 [v Hv]%elem_of_keys _ E.
      rewrite (bind_Ok _ _ h1 src h1)
        by (unfold M3905.own_props; by rewrite E).
      rewrite Hv. by rewrite (lookup_chain_own _ _ _ Hv).
Qed.

Lemma foldl_Forall_ext {A B} (g1 g2 : A → B → A) (P : B → Prop) xs :
  Forall P xs → (∀ acc x, P x → g1 acc x = g2 acc x) →
  ∀ acc, foldl g1 acc xs = foldl g2 acc xs.
Proof.
  intros Hxs Hg. induction Hxs as [|x xs Hx _ IH]; intros acc; simpl; [done|].
  by rewrite Hg, IH.
Qed.

Lemma i_from_refs e rs :
  ∀ n h,
  e < length h → Forall (λ r, r ≠ e) rs →
  M3905.i_from host e n (VRef <$> rs) h
  = Ok (tt, <[e := foldl (λ acc r, contents h r ∪ acc) (contents h e) rs]> h).
Proof.
  induction rs as [|r rs IH]; intros n h Hlt Hrs; simpl.
  - unfold ret. f_equal. f_equal. symmetry. apply list_insert_id.
    by apply contents_lt.
  - apply Forall_cons in Hrs as [Hr Hrs].
    run (i_turn_ref e n r h Hlt Hr).
    rewrite IH; [|by rewrite length_insert|done].
    rewrite contents_insert_eq by done. rewrite list_insert_insert_eq.
    f_equal. f_equal. f_equal.
    apply (foldl_Forall_ext _ _ _ _ Hrs).
    intros acc r' Hr'. by rewrite contents_insert_ne.
Qed.

Lemma i_run_refs e rs h :
  e < length h → Forall (λ r, r ≠ e) rs →
  M3905.i host e (VRef <$> rs) h
  = Ok (e, <[e := foldl (λ acc r, contents h r ∪ acc) (contents h e) rs]> h).
Proof.
  intros Hlt Hrs. unfold M3905.i, bind. by rewrite i_from_refs.
Qed.

Lemma l_run r (x : obj) ns h :
  h !! r = Some x →
  M3905.l host (VRef r) ns h = Ok (length h, h ++ [without ns (assigned x)]).
Proof.
  intros Hx. pose proof (lookup_lt_Some _ _ _ Hx) as Hlt.
  unfold M3905.l, M3905.l_inner. simpl.
  rewrite (bind_Ok _ _ h (length h) (h ++ [∅])) by done.
  assert (Hsrc : contents (h ++ [∅]) r = x).
  { rewrite contents_app_l by done. by apply contents_Some. }
  unfold M3905.keys.
  rewrite (bind_Ok _ _ _ (map_to_list x).*1 (h ++ [∅]))
    by (unfold bind, M3905.own_props, ret; by rewrite Hsrc).
  rewrite (bind_Ok _ _ (h ++ [∅]) tt (h ++ [without ns (assigned x)])); [done|].
  rewrite (forEach_update (length h)
             (λ k acc, if negb (bool_decide (k ∈ ns))
                          && negb (String.eqb k "__proto__")
                       then <[k := lookup_chain x k]> acc else acc)
             (λ h1, contents h1 r = x)).
  - rewrite contents_new, foldl_assign_without. by rewrite insert_new.
  - intros h1 y E. rewrite contents_insert_ne; [done|lia].
  - rewrite length_app. simpl. lia.
  - done.
  - intros k h1 _ Hlt1 E. case_bool_decide; simpl.
    + unfold ret. f_equal. f_equal. symmetry. apply list_insert_id.
      by apply contents_lt.
    + run (get_ref_run r k h1). rewrite E. by rewrite assign_run.
Qed.


(** *** The context reader [p] *)

(** Without an override [p] returns the context it read. *)
Lemma p_run_falsy n e h :
  truthy e = false → M3905.p host n e h = Ok (n, h).
Proof. intros E. unfold M3905.p. by rewrite E. Qed.

(** With an object as override [p] returns a new object: the context
    with the override's properties written over it.  Nothing else in
    the store changes. *)
Lemma p_run_refs rc ro (c ov : obj) h :
  h !! rc = Some c → h !! ro = Some ov →
  M3905.p host (VRef rc) (VRef ro) h = Ok (VRef (length h), h ++ [ov ∪ c]).
Proof.
  intros Hc Ho.
  pose proof (lookup_lt_Some _ _ _ Hc) as Hltc.
  pose proof (lookup_lt_Some _ _ _ Ho) as Hlto.
  unfold M3905.p. simpl.
  rewrite (bind_Ok _ _ h (length h) (h ++ [∅])) by done.
  assert (Hlen : length h < length (h ++ [(∅ : obj)])).
  { rewrite length_app. simpl. lia. }
  rewrite (bind_Ok _ _ _ _ _
    (i_run_refs (length h) [rc] (h ++ [∅]) Hlen ltac:(repeat constructor; lia))).
  simpl. rewrite contents_new, insert_new.
  rewrite contents_app_l, (contents_Some _ _ _ Hc) by done.
  assert (Hlen' : length h < length (h ++ [c ∪ (∅ : obj)])).
  { rewrite length_app. simpl. lia. }
  rewrite (bind_Ok _ _ _ _ _
    (i_run_refs (length h) [ro] (h ++ [c ∪ ∅]) Hlen' ltac:(repeat constructor; lia))).
  simpl. rewrite contents_new, insert_new.
  rewrite contents_app_l, (contents_Some _ _ _ Ho) by done.
  by rewrite (right_id_L ∅ (∪) c).
Qed.

(** *** Frames: what [i] and [p] leave alone *)

Lemma get_by_host v k h :
  by_host v → M3905.get host v k h = Ok (host_get host v k, h).
Proof. intros [Hn Hr]. destruct v; try done. by destruct (Hr r). Qed.

Lemma own_props_by_host v h :
  by_host v → M3905.own_props host v h = Ok (host_own host v, h).
Proof. intros [Hn Hr]. destruct v; try done. by destruct (Hr r). Qed.

Lemma i_turn_by_host e n arg h :
  e < length h → by_host arg →
  ∃ x, M3905.i_turn host e n arg h = Ok (tt, <[e := x]> h).
Proof.
  intros Hlt Harg. unfold M3905.i_turn.
  rewrite (proj1 Harg).
  rewrite (bind_Ok _ _ h arg h) by done.
  destruct (Nat.odd n); [|destruct (has_getOwnPropertyDescriptors host)].
  - unfold M3905.a, M3905.keys.
    rewrite (bind_Ok _ _ h (map_to_list (host_own host arg)).*1 h)
      by (unfold bind; by rewrite own_props_by_host).
    eexists.
    apply (forEach_update e (λ k acc, <[k := host_get host arg k]> acc)
             (λ _, True)); [done..|].
    intros k h1 _ _ _.
    run (get_by_host arg k h1 Harg).
    unfold bind. by rewrite o_run.
  - run (own_props_by_host arg h Harg).
    by eexists.
  - unfold M3905.a, M3905.keys.
    rewrite (bind_Ok _ _ h (map_to_list (host_own host arg)).*1 h)
      by (unfold bind; by rewrite own_props_by_host).
    eexists.
    apply (forEach_update e
             (λ k acc, <[k := lookup_chain (host_own host arg) k]> acc)
             (λ _, True)); [done..|].
    intros k h1 [v Hv]%elem_of_keys _ _.
    run (own_props_by_host arg h1 Harg).
    rewrite Hv. by rewrite (lookup_chain_own _ _ _ Hv).
Qed.

Lemma i_turn_nullish e n arg h :
  nullish arg = true →
  M3905.i_turn host e n arg h
  = M3905.i_turn host e n (VRef (length h)) (h ++ [∅]).
Proof. intros Hn. by destruct arg. Qed.

(** One turn of [i] rewrites the target and may allocate; everything
    else stays. *)
Lemma i_turn_frame e n arg h :
  e < length h → arg ≠ VRef e →
  ∃ x ext, M3905.i_turn host e n arg h = Ok (tt, <[e := x]> h ++ ext).
Proof.
  intros Hlt Hne.
  destruct (nullish arg) eqn:Hn.
  - rewrite (i_turn_nullish _ _ _ _ Hn).
    rewrite i_turn_ref; [|rewrite length_app; simpl; lia|lia].
    eexists _, [∅]. by rewrite insert_app_l.
  - assert (Hcases : (∃ r, arg = VRef r) ∨ ∀ r, arg ≠ VRef r)
      by (destruct arg; eauto; right; intros ?; discriminate).
    destruct Hcases as [[r ->]|Hr].
    + rewrite i_turn_ref; [|done|congruence].
      eexists _, []. by rewrite app_nil_r.
    + destruct (i_turn_by_host e n arg h Hlt) as [x Hx]; [done|].
      exists x, []. by rewrite app_nil_r.
Qed.

Lemma i_from_frame e args :
  ∀ n h,
  e < length h → Forall (λ arg, arg ≠ VRef e) args →
  ∃ x ext, M3905.i_from host e n args h = Ok (tt, <[e := x]> h ++ ext).
Proof.
  induction args as [|arg args IH]; intros n h Hlt Hargs; simpl.
  - exists (contents h e), []. rewrite app_nil_r.
    unfold ret. f_equal. f_equal. symmetry. apply list_insert_id.
    by apply contents_lt.
  - apply Forall_cons in Hargs as [Harg Hargs].
    destruct (i_turn_frame e n arg h Hlt Harg) as (x & ext & Hturn).
    run Hturn.
    destruct (IH (S n) (<[e := x]> h ++ ext)) as (x' & ext' & Hrest);
      [rewrite length_app, length_insert; lia|done|].
    rewrite Hrest. exists x', (ext ++ ext').
    rewrite insert_app_l by (rewrite length_insert; lia).
    by rewrite list_insert_insert_eq, <- (assoc_L (++)).
Qed.

Lemma i_frame e args h :
  e < length h → Forall (λ arg, arg ≠ VRef e) args →
  ∃ x ext, M3905.i host e args h = Ok (e, <[e := x]> h ++ ext).
Proof.
  intros Hlt Hargs.
  destruct (i_from_frame e args 1 h Hlt Hargs) as (x & ext & E).
  exists x, ext. unfold M3905.i, bind. by rewrite E.
Qed.

Lemma valid_fresh h v : valid h v → v ≠ VRef (length h).
Proof. intros Hv ->. simpl in Hv. lia. Qed.

(** Whatever [p] returns, it only appended to the store. *)
Lemma p_frame n e h U h1 :
  valid h n → valid h e →
  M3905.p host n e h = Ok (U, h1) → ∃ ext, h1 = h ++ ext.
Proof.
  intros Hn He. unfold M3905.p.
  destruct (truthy e); [|intros [= _ <-]; exists []; by rewrite app_nil_r].
  destruct (typeof_function e) eqn:Hfn.
  - destruct e; try done. unfold M3905.call.
    destruct (host_call host name [n] h) as [[v ext]|]; [|done].
    intros [= _ <-]. by exists ext.
  - rewrite (bind_Ok _ _ h (length h) (h ++ [∅])) by done.
    destruct (i_frame (length h) [n] (h ++ [∅])) as (x & ext & E1).
    { rewrite length_app. simpl. lia. }
    { repeat constructor. by apply valid_fresh. }
    rewrite (bind_Ok _ _ _ _ _ E1). rewrite insert_new.
    destruct (i_frame (length h) [e] ((h ++ [x]) ++ ext)) as (x' & ext' & E2).
    { rewrite !length_app. simpl. lia. }
    { repeat constructor. by apply valid_fresh. }
    run E2.
    intros [= _ <-].
    rewrite insert_app_l by (rewrite length_app; simpl; lia).
    rewrite insert_new. exists ([x'] ++ ext ++ ext').
    by rewrite <- !(assoc_L (++)).
Qed.

(** With an override that is not a function [p] does return, and the
    result is not [null] or [undefined] unless the context it read is. *)
Lemma p_total n e h :
  valid h n → valid h e → typeof_function e = false →
  ∃ U h1, M3905.p host n e h = Ok (U, h1) ∧
          (nullish U = true → nullish n = true).
Proof.
  intros Hn He Hfn. unfold M3905.p. rewrite Hfn.
  destruct (truthy e); [|by exists n, h].
  rewrite (bind_Ok _ _ h (length h) (h ++ [∅])) by done.
  destruct (i_frame (length h) [n] (h ++ [∅])) as (x & ext & E1).
  { rewrite length_app. simpl. lia. }
  { repeat constructor. by apply valid_fresh. }
  rewrite (bind_Ok _ _ _ _ _ E1). rewrite insert_new.
  destruct (i_frame (length h) [e] ((h ++ [x]) ++ ext)) as (x' & ext' & E2).
  { rewrite !length_app. simpl. lia. }
  { repeat constructor. by apply valid_fresh. }
  rewrite (bind_Ok _ _ _ _ _ E2). by eexists _, _.
Qed.

(** *** The lookup [choose] and the component [u] *)

Lemma to_string_primitive v k :
  primitive_string v = Some k → M3905.to_string host v = Some k.
Proof. intros E. unfold M3905.to_string. by rewrite E. Qed.

(** [choose] once both keys have their text. *)
Lemma choose_keys U s f a ks kf h :
  M3905.to_string host s = Some ks → M3905.to_string host f = Some kf →
  M3905.choose host U s f a h =
    (m1 <- M3905.get host U (ks ++ "." ++ kf) ;;
     if truthy m1 then ret m1
     else
       m2 <- M3905.get host U kf ;;
       if truthy m2 then ret m2
       else ret (or_else (lookup_chain M3905.d kf) a)) h.
Proof.
  intros Hs Hf. unfold M3905.choose, M3905.to_key, bind. rewrite Hs, Hf.
  destruct (M3905.get host U _ h) as [[m1 h1]|]; [|done].
  destruct (truthy m1); [done|].
  destruct (M3905.get host U kf h1) as [[m2 h2]|]; [|done].
  by destruct (truthy m2).
Qed.

(** [choose] throws when a key has no text. *)
Lemma choose_no_key U s f a h :
  M3905.to_string host s = None ∨ M3905.to_string host f = None →
  M3905.choose host U s f a h = Throw TypeError.
Proof.
  unfold M3905.choose, M3905.to_key, bind.
  destruct (M3905.to_string host s); [|done].
  by intros [?| ->].
Qed.

(** [choose] throws on [null] and [undefined], whatever the keys. *)
Lemma choose_nullish U s f a h :
  nullish U = true → M3905.choose host U s f a h = Throw TypeError.
Proof.
  intros HU. unfold M3905.choose, M3905.to_key, bind.
  destruct (M3905.to_string host s); [|done].
  destruct (M3905.to_string host f); [|done].
  by destruct U.
Qed.

Lemma choose_run_ref r s f a ks kf h :
  M3905.to_string host s = Some ks → M3905.to_string host f = Some kf →
  M3905.choose host (VRef r) s f a h = Ok (pick (contents h r) ks kf a, h).
Proof.
  intros Hs Hf. rewrite (choose_keys _ _ _ _ ks kf) by done.
  unfold pick, or_else.
  run (get_ref_run r _ h).
  destruct (truthy (lookup_chain (contents h r) _)); [done|].
  run (get_ref_run r _ h).
  by destruct (truthy (lookup_chain (contents h r) _)).
Qed.

Lemma get_store v k h x h1 : M3905.get host v k h = Ok (x, h1) → h1 = h.
Proof. unfold M3905.get. destruct v; congruence. Qed.

(** [choose] only reads. *)
Lemma choose_store U s f a h m h1 :
  M3905.choose host U s f a h = Ok (m, h1) → h1 = h.
Proof.
  destruct (M3905.to_string host s) as [ks|] eqn:Hs;
    [|by rewrite choose_no_key by (by left)].
  destruct (M3905.to_string host f) as [kf|] eqn:Hf;
    [|by rewrite choose_no_key by (by right)].
  rewrite (choose_keys _ _ _ _ ks kf) by done. unfold bind.
  destruct (M3905.get host U _ h) as [[m1 h2]|] eqn:E1; [|done].
  apply get_store in E1 as ->.
  destruct (truthy m1); [by intros [= _ <-]|].
  destruct (M3905.get host U _ h) as [[m2 h2]|] eqn:E2; [|done].
  apply get_store in E2 as ->.
  destruct (truthy m2); by intros [= _ <-].
Qed.

(** With both keys, [choose] fails only on [null] and [undefined]. *)
Lemma choose_total U s f a ks kf h :
  M3905.to_string host s = Some ks → M3905.to_string host f = Some kf →
  nullish U = false → ∃ m, M3905.choose host U s f a h = Ok (m, h).
Proof.
  intros Hs Hf HU. rewrite (choose_keys _ _ _ _ ks kf) by done. unfold bind.
  assert (Hget : ∀ k, ∃ x, M3905.get host U k h = Ok (x, h))
    by (intros k; destruct U; try done; by eexists).
  destruct (Hget (ks ++ "." ++ kf)%string) as [m1 ->].
  destruct (truthy m1); [by eexists|].
  destruct (Hget kf) as [m2 ->].
  destruct (truthy m2); by eexists.
Qed.

Lemma valid_app h ext v : valid h v → valid (h ++ ext) v.
Proof. destruct v; simpl; try done. rewrite length_app. lia. Qed.

(** [u] in one equation: strip the props, read the components, choose
    the renderer, assemble the props to forward. *)
Lemma u_eq re (props : obj) ctx n h :
  h !! re = Some props →
  valid h ctx → valid h (lookup_chain props "components") →
  M3905.u host ctx (VRef re) n h =
    let t := lookup_chain props "components" in
    match M3905.p host ctx t (h ++ [without M3905.reserved (assigned props)]) with
    | Throw e => Throw e
    | Ok (U, h1) =>
        match M3905.choose host U (lookup_chain props "parentName")
                (lookup_chain props "mdxType")
                (lookup_chain props "originalType") h1 with
        | Throw e => Throw e
        | Ok (m, _) =>
            Ok (VElement m (VRef (length h1)) [],
                h1 ++ forwarded props n t ::
                  (if truthy t then [∅; {[ "components" := t ]}] else []))
        end
    end.
Proof.
  intros Hprops Hctx Ht. unfold M3905.u.
  rewrite !(bind_Ok _ _ _ _ _ (get_ref_run re _ h)).
  rewrite (contents_Some _ _ _ Hprops).
  run (l_run re props M3905.reserved h Hprops).
  set (t := lookup_chain props "components") in *.
  set (w := without M3905.reserved (assigned props)).
  unfold bind at 1.
  destruct (M3905.p host ctx t (h ++ [w])) as [[U h1]|] eqn:Hp; [|done].
  destruct (p_frame _ _ _ _ _ (valid_app _ [w] _ Hctx) (valid_app _ [w] _ Ht) Hp)
    as [ext ->].
  unfold bind at 1.
  destruct (M3905.choose host U _ _ _ _) as [[m h2]|] eqn:Hm; [|done].
  apply choose_store in Hm as ->.
  set (h1 := (h ++ [w]) ++ ext).
  assert (Hw : contents h1 (length h) = w).
  { unfold h1. rewrite contents_app_l by (rewrite length_app; simpl; lia).
    apply contents_new. }
  assert (Hlen : length h < length h1).
  { unfold h1. rewrite !length_app. simpl. lia. }
  unfold forwarded. fold w.
  destruct (truthy t).
  - rewrite (bind_Ok _ _ h1 (length h1) (h1 ++ [{[ "ref" := n ]}])) by done.
    rewrite (bind_Ok _ _ _ _ _
      (i_run_refs (length h1) [length h] (h1 ++ [{[ "ref" := n ]}])
         ltac:(rewrite length_app; simpl; lia) ltac:(repeat constructor; lia))).
    simpl. rewrite contents_new, insert_new.
    rewrite contents_app_l, Hw by done.
    set (b := w ∪ {[ "ref" := n ]}).
    rewrite (bind_Ok _ _ (h1 ++ [b]) (S (length h1)) (h1 ++ [b; ∅])).
    2:{ unfold new_object. rewrite length_app, <- (assoc_L (++)). simpl.
        do 3 f_equal. lia. }
    rewrite (bind_Ok _ _ (h1 ++ [b; ∅]) (S (S (length h1)))
               (h1 ++ [b; ∅; {[ "components" := t ]}])).
    2:{ unfold new_object. rewrite length_app, <- (assoc_L (++)). simpl.
        do 3 f_equal. lia. }
    rewrite (bind_Ok _ _ _ _ _
      (i_run_refs (length h1) [S (length h1); S (S (length h1))]
         (h1 ++ [b; ∅; {[ "components" := t ]}])
         ltac:(rewrite length_app; simpl; lia) ltac:(repeat constructor; lia))).
    simpl. unfold createElement, ret. do 2 f_equal.
    rewrite insert_at.
    pose proof (contents_at h1 [b; ∅; {[ "components" := t ]}] 0) as E0.
    pose proof (contents_at h1 [b; ∅; {[ "components" := t ]}] 1) as E1.
    pose proof (contents_at h1 [b; ∅; {[ "components" := t ]}] 2) as E2.
    rewrite Nat.add_0_r in E0. rewrite Nat.add_1_r in E1.
    replace (length h1 + 2) with (S (S (length h1))) in E2 by lia.
    rewrite E0, E1, E2. simpl. rewrite (left_id_L ∅ (∪)).
    by rewrite insert_union_singleton_l.
  - rewrite (bind_Ok _ _ h1 (length h1) (h1 ++ [{[ "ref" := n ]}])) by done.
    rewrite (bind_Ok _ _ _ _ _
      (i_run_refs (length h1) [length h] (h1 ++ [{[ "ref" := n ]}])
         ltac:(rewrite length_app; simpl; lia) ltac:(repeat constructor; lia))).
    simpl. rewrite contents_new, insert_new.
    by rewrite contents_app_l, Hw by done.
Qed.

(** *** Resolution over plain objects *)

Lemma has_dot_scoped s t : has_dot (s ++ "." ++ t) = true.
Proof. induction s as [|ch s IH]; simpl; [done|]. by rewrite IH, orb_true_r. Qed.

Lemma Object_prototype_no_dot k :
  has_dot k = true → Object_prototype !! k = None.
Proof.
  intros Hdot. destruct (Object_prototype !! k) as [v|] eqn:E; [|done].
  apply elem_of_list_to_map_2 in E.
  repeat (apply elem_of_cons in E as [[= -> ->]|E]; [done|]).
  by apply elem_of_nil in E.
Qed.

(** A scoped key is never inherited: only an own property answers. *)
Lemma lookup_chain_scoped (x : obj) s t :
  lookup_chain x (s ++ "." ++ t) = default VUndefined (x !! (s ++ "." ++ t)%string).
Proof.
  unfold lookup_chain. destruct (x !! _); [done|].
  by rewrite Object_prototype_no_dot by apply has_dot_scoped.
Qed.

Lemma lookup_chain_components (props : obj) :
  props !! "components" = None → lookup_chain props "components" = VUndefined.
Proof. intros E. unfold lookup_chain. by rewrite E. Qed.

Lemma is_renderer_truthy v : is_renderer v = true → truthy v = true.
Proof. by destruct v. Qed.

(** Without a [components] prop the renderer is looked up in the
    context itself. *)
Lemma u_run_plain rc re (c props : obj) n ks kf h :
  h !! rc = Some c → h !! re = Some props →
  truthy (lookup_chain props "components") = false →
  M3905.to_string host (lookup_chain props "parentName") = Some ks →
  M3905.to_string host (lookup_chain props "mdxType") = Some kf →
  M3905.u host (VRef rc) (VRef re) n h =
    Ok (VElement (pick c ks kf (lookup_chain props "originalType"))
          (VRef (S (length h))) [],
        h ++ [without M3905.reserved (assigned props);
              forwarded props n (lookup_chain props "components")]).
Proof.
  intros Hc Hprops Ht Hs Hf.
  pose proof (lookup_lt_Some _ _ _ Hc) as Hlt.
  rewrite (u_eq re props) by (done || by destruct (lookup_chain props _)).
  simpl. rewrite p_run_falsy by done.
  rewrite (choose_run_ref _ _ _ _ ks kf) by done.
  rewrite contents_app_l, (contents_Some _ _ _ Hc) by done.
  rewrite Ht, length_app, <- (assoc_L (++)). simpl.
  by rewrite Nat.add_1_r.
Qed.

(** With a plain object as [components] prop the renderer is looked
    up in the context extended by it. *)
Lemma u_run_override rc re ro (c props ov : obj) n ks kf h :
  h !! rc = Some c → h !! re = Some props → h !! ro = Some ov →
  lookup_chain props "components" = VRef ro →
  M3905.to_string host (lookup_chain props "parentName") = Some ks →
  M3905.to_string host (lookup_chain props "mdxType") = Some kf →
  renderer_of (M3905.u host (VRef rc) (VRef re) n h) =
    Some (pick (ov ∪ c) ks kf (lookup_chain props "originalType")).
Proof.
  intros Hc Hprops Ho Ht Hs Hf.
  pose proof (lookup_lt_Some _ _ _ Hc) as Hltc.
  pose proof (lookup_lt_Some _ _ _ Ho) as Hlto.
  rewrite (u_eq re props) by (done || by rewrite Ht).
  simpl. rewrite Ht.
  rewrite (p_run_refs rc ro c ov) by (by apply lookup_app_l_Some).
  rewrite (choose_run_ref _ _ _ _ ks kf) by done.
  by rewrite contents_new.
Qed.

Lemma override_components h (props ov : obj) :
  override_of h props ov → components_of h props ov.
Proof.
  intros [[Hnone ->]|(ro & Hsome & Ho)].
  - left. by rewrite lookup_chain_components.
  - right. exists ro. split; [by apply lookup_chain_own|done].
Qed.

(** Both cases at once. *)
Lemma u_resolves rc re (c props ov : obj) n ks kf h :
  h !! rc = Some c → h !! re = Some props → components_of h props ov →
  M3905.to_string host (lookup_chain props "parentName") = Some ks →
  M3905.to_string host (lookup_chain props "mdxType") = Some kf →
  renderer_of (M3905.u host (VRef rc) (VRef re) n h) =
    Some (pick (ov ∪ c) ks kf (lookup_chain props "originalType")).
Proof.
  intros Hc Hprops [[Hnone ->]|(ro & Hsome & Ho)] Hs Hf.
  - rewrite (u_run_plain rc re c props n ks kf) by done.
    simpl. by rewrite (left_id_L ∅ (∪)).
  - by apply (u_run_override rc re ro).
Qed.

(** The text of a string prop, and of an absent one. *)
Lemma to_string_prop (props : obj) k s :
  props !! k = Some (VStr s) →
  M3905.to_string host (lookup_chain props k) = Some s.
Proof. intros E. by rewrite (lookup_chain_own _ _ _ E). Qed.

Lemma to_string_no_parent (props : obj) :
  props !! "parentName" = None →
  M3905.to_string host (lookup_chain props "parentName") = Some "undefined".
Proof. intros E. unfold lookup_chain. by rewrite E. Qed.

(** *** The element factory [f] *)



(** The loop [for(var p=2;p<a;p++)i[p]=t[p]] copies the children. *)
Lemma copy_children children :
  ∀ pre rest : list value,
  length rest = length children →
  foldl (λ i p, array_set i p (nth_arg (pre ++ children) p)) (pre ++ rest)
        (seq (length pre) (length children))
  = pre ++ children.
Proof.
  induction children as [|ch children IH]; intros pre rest Hlen; simpl.
  - destruct rest; [done|simpl in Hlen; lia].
  - destruct rest as [|x0 rest]; [simpl in Hlen; lia|].
    assert (Hset : array_set (pre ++ x0 :: rest) (length pre)
                     (nth_arg (pre ++ ch :: children) (length pre))
                   = (pre ++ [ch]) ++ rest).
    { unfold array_set, nth_arg. rewrite list_lookup_middle by done. simpl.
      rewrite decide_True by (rewrite length_app; simpl; lia).
      rewrite <- (assoc_L (++)). simpl.
      replace (length pre) with (length pre + 0) at 1 by lia.
      by rewrite insert_app_r. }
    rewrite Hset.
    replace (pre ++ ch :: children) with ((pre ++ [ch]) ++ children)
      by (by rewrite <- (assoc_L (++))).
    replace (S (length pre)) with (length (pre ++ [ch]))
      by (rewrite length_app; simpl; lia).
    apply IH. simpl in Hlen. lia.
Qed.

Lemma f_array l e n children :
  foldl (λ i p, array_set i p (nth_arg (e :: n :: children) p))
    (array_set
       (array_set (replicate (length (e :: n :: children)) VUndefined) 0
          (VHost MDXCreateElement)) 1 (VRef l))
    (seq 2 (length (e :: n :: children) - 2))
  = VHost MDXCreateElement :: VRef l :: children.
Proof.
  simpl. rewrite Nat.sub_0_r.
  assert (E := copy_children children
                 [VHost MDXCreateElement; VRef l]
                 (replicate (length children) VUndefined)
                 ltac:(by rewrite length_replicate)).
  simpl in E. etrans; [|exact E].
  apply (foldl_Forall_ext _ _ (λ p, 2 ≤ p)).
  - apply Forall_seq. intros; lia.
  - intros acc [|[|q]] Hq; [lia..|done].
Qed.


Lemma own_props_nullish v h :
  nullish v = true → M3905.own_props host v h = Ok (∅, h).
Proof. by destruct v. Qed.




(** [f] on a string tag and a props object: the config is a new
    object with the props, [originalType] and [mdxType]. *)
Lemma f_run_tag tag r (x : obj) children h :
  h !! r = Some x →
  M3905.f host (VStr tag :: VRef r :: children) h
  = Ok (VElement (VHost MDXCreateElement) (VRef (length h)) children,
        h ++ [mdx_config tag (assigned x)]).
Proof.
  intros Hx. pose proof (lookup_lt_Some _ _ _ Hx) as Hlt.
  unfold M3905.f. cbv zeta.
  change (nth_arg (VStr tag :: VRef r :: children) 0) with (VStr tag).
  change (nth_arg (VStr tag :: VRef r :: children) 1) with (VRef r).
  run (get_ref_run r "mdxType" h).
  cbn [typeof_string orb].
  rewrite (bind_Ok _ _ h (length h) (h ++ [∅])) by done.
  assert (Hsrc : contents (h ++ [∅]) r = x).
  { rewrite contents_app_l by done. by apply contents_Some. }
  unfold M3905.keys.
  rewrite (bind_Ok _ _ _ (map_to_list x).*1 (h ++ [∅]))
    by (unfold bind, M3905.own_props, ret; by rewrite Hsrc).
  rewrite (bind_Ok _ _ (h ++ [∅]) tt (h ++ [assigned x])).
  - unfold bind, assign, put, createElement_apply, createElement, ret. simpl.
    rewrite f_array. do 2 f_equal.
    rewrite contents_insert_eq, list_insert_insert_eq
      by (rewrite length_app; simpl; lia).
    by rewrite contents_new, insert_new.
  - rewrite (forEach_update (length h)
               (λ k acc, if negb (bool_decide (k ∈ @nil string))
                            && negb (String.eqb k "__proto__")
                         then <[k := lookup_chain x k]> acc else acc)
               (λ h1, contents h1 r = x)).
    + rewrite contents_new, foldl_assign_without, without_nil.
      by rewrite insert_new.
    + intros h1 y E. rewrite contents_insert_ne; [done|lia].
    + rewrite length_app. simpl. lia.
    + done.
    + intros k h1 [v Hv]%elem_of_keys Hlt1 E.
      rewrite (bool_decide_eq_false_2 (k ∈ [])) by apply not_elem_of_nil.
      unfold M3905.hasOwnProperty, M3905.own_props.
      unfold bind at 1. unfold bind at 1. unfold ret at 1.
      rewrite E, bool_decide_eq_true_2 by eauto.
      run (get_ref_run r k h1). rewrite E. by rewrite assign_run.
Qed.

(** *** The host's rendering step *)

Lemma element_props_run r (x : obj) children h :
  h !! r = Some x →
  React.element_props host (VRef r) children h
  = Ok (VRef (length h),
        h ++ [with_children children
                (without React.RESERVED_PROPS (assigned x))]).
Proof.
  intros Hx. pose proof (lookup_lt_Some _ _ _ Hx) as Hlt.
  unfold React.element_props.
  rewrite (bind_Ok _ _ h (length h) (h ++ [∅])) by done.
  assert (Hsrc : contents (h ++ [∅]) r = x).
  { rewrite contents_app_l by done. by apply contents_Some. }
  unfold M3905.keys.
  rewrite (bind_Ok _ _ _ (map_to_list x).*1 (h ++ [∅]))
    by (unfold bind, M3905.own_props, ret; by rewrite Hsrc).
  rewrite (bind_Ok _ _ (h ++ [∅]) tt
             (h ++ [without React.RESERVED_PROPS (assigned x)])).
  - destruct children as [|child [|child' children]]; simpl.
    + done.
    + unfold bind, assign, put, ret. simpl. by rewrite contents_new, insert_new.
    + unfold bind, assign, put, ret. simpl. by rewrite contents_new, insert_new.
  - rewrite (forEach_update (length h)
               (λ k acc, if negb (bool_decide (k ∈ React.RESERVED_PROPS))
                            && negb (String.eqb k "__proto__")
                         then <[k := lookup_chain x k]> acc else acc)
               (λ h1, contents h1 r = x)).
    + rewrite contents_new, foldl_assign_without. by rewrite insert_new.
    + intros h1 y E. rewrite contents_insert_ne; [done|lia].
    + rewrite length_app. simpl. lia.
    + done.
    + intros k h1 _ Hlt1 E. case_bool_decide; simpl.
      * unfold ret. f_equal. f_equal. symmetry. apply list_insert_id.
        by apply contents_lt.
      * run (get_ref_run r k h1). rewrite E. by rewrite assign_run.
Qed.

End Specs.

(** ** The properties of the specification *)

Section Properties.
Context (host : Host).

(** C1, as amended.  An override object that maps the tag to the
    renderer [R'] decides the renderer, whatever else the context
    holds, provided that the context extended by the override has no
    truthy entry under the scoped key [parentName.tag]: such an entry
    is looked up first.  The [parentName] prop is absent or a
    primitive, with the text [ks]. *)
Theorem override_dominance_unless_scoped
    h rc re ro (c props ov : obj) n tag ks R' :
  h !! rc = Some c → h !! re = Some props → h !! ro = Some ov →
  props !! "components" = Some (VRef ro) →
  props !! "mdxType" = Some (VStr tag) →
  primitive_string (lookup_chain props "parentName") = Some ks →
  ov !! tag = Some R' → is_renderer R' = true →
  truthy (default VUndefined ((ov ∪ c) !! (ks ++ "." ++ tag)%string)) = false →
  renderer_of (M3905.u host (VRef rc) (VRef re) n h) = Some R'.
Proof.
  intros Hc Hprops Ho Hcomp Htag Hks HR' Hren Hscoped.
  rewrite (u_resolves host rc re c props ov n ks tag).
  - f_equal. unfold pick, or_else.
    rewrite lookup_chain_scoped, Hscoped.
    rewrite (lookup_chain_own (ov ∪ c) tag R')
      by (by apply lookup_union_Some_l).
    by rewrite is_renderer_truthy.
  - done.
  - done.
  - right. exists ro. split; [by apply lookup_chain_own|done].
  - by apply to_string_primitive.
  - by apply to_string_prop.
Qed.

(** C3, as amended.  Without an override (the [components] prop is
    absent or falsy), a context that maps the tag to the renderer [R]
    decides the renderer, provided that it has no truthy entry under
    the scoped key [parentName.tag].  The [parentName] prop is absent
    or a primitive, with the text [ks]. *)
Theorem context_hit_unless_scoped h rc re (c props : obj) n tag ks R :
  h !! rc = Some c → h !! re = Some props →
  truthy (lookup_chain props "components") = false →
  props !! "mdxType" = Some (VStr tag) →
  primitive_string (lookup_chain props "parentName") = Some ks →
  c !! tag = Some R → is_renderer R = true →
  truthy (default VUndefined (c !! (ks ++ "." ++ tag)%string)) = false →
  renderer_of (M3905.u host (VRef rc) (VRef re) n h) = Some R.
Proof.
  intros Hc Hprops Hcomp Htag Hks HR Hren Hscoped.
  rewrite (u_resolves host rc re c props ∅ n ks tag).
  - f_equal. unfold pick, or_else. rewrite (left_id_L ∅ (∪)).
    rewrite lookup_chain_scoped, Hscoped.
    rewrite (lookup_chain_own c tag R) by done.
    by rewrite is_renderer_truthy.
  - done.
  - done.
  - by left.
  - by apply to_string_primitive.
  - by apply to_string_prop.
Qed.

(** C2, as amended.  Without an override (the [components] prop is
    absent or falsy), a tag that the context does not map, that has no
    truthy entry under the scoped key [parentName.tag], that is not one
    of the built-in names [inlineCode] and [wrapper], and that is not a
    member every object inherits, is rendered as itself.  The
    [parentName] prop is absent or a primitive, with the text [ks]. *)
Theorem pass_through_fallback h rc re (c props : obj) n tag ks :
  h !! rc = Some c → h !! re = Some props →
  truthy (lookup_chain props "components") = false →
  props !! "mdxType" = Some (VStr tag) →
  props !! "originalType" = Some (VStr tag) →
  primitive_string (lookup_chain props "parentName") = Some ks →
  c !! tag = None →
  truthy (default VUndefined (c !! (ks ++ "." ++ tag)%string)) = false →
  M3905.d !! tag = None →
  Object_prototype !! tag = None →
  renderer_of (M3905.u host (VRef rc) (VRef re) n h) = Some (VStr tag).
Proof.
  intros Hc Hprops Hcomp Htag Horig Hks Hnone Hscoped Hd Hproto.
  rewrite (u_resolves host rc re c props ∅ n ks tag).
  - f_equal. unfold pick, or_else. rewrite (left_id_L ∅ (∪)).
    rewrite (lookup_chain_own _ _ _ Horig).
    rewrite lookup_chain_scoped, Hscoped.
    unfold lookup_chain. by rewrite Hnone, Hd, Hproto.
  - done.
  - done.
  - by left.
  - by apply to_string_primitive.
  - by apply to_string_prop.
Qed.

(** C9.  When the components object (the context, extended by the
    [components] prop when there is one) holds a renderer under the
    scoped key [parentName.tag], that renderer is chosen, whatever the
    context and the override hold under the plain key [tag]. *)
Theorem scoped_lookup_precedence h rc re (c props ov : obj) n tag parent R :
  h !! rc = Some c → h !! re = Some props → override_of h props ov →
  props !! "mdxType" = Some (VStr tag) →
  props !! "parentName" = Some (VStr parent) →
  (ov ∪ c) !! (parent ++ "." ++ tag)%string = Some R →
  is_renderer R = true →
  renderer_of (M3905.u host (VRef rc) (VRef re) n h) = Some R.
Proof.
  intros Hc Hprops Hov Htag Hparent HR Hren.
  rewrite (u_resolves host rc re c props ov n parent tag).
  - f_equal. unfold pick, or_else.
    rewrite lookup_chain_scoped, HR. simpl.
    by rewrite is_renderer_truthy.
  - done.
  - done.
  - by apply override_components.
  - by apply to_string_prop.
  - by apply to_string_prop.
Qed.

(** C5.  Extending a context by an override object leaves the context
    object as it was (and every other object of the store, the
    override included): the result is a new object. *)
Theorem extend_non_mutating h rc ro (c ov : obj) :
  h !! rc = Some c → h !! ro = Some ov →
  ∃ r' h',
    M3905.p host (VRef rc) (VRef ro) h = Ok (VRef r', h') ∧
    h !! r' = None ∧ is_Some (h' !! r') ∧
    h' !! rc = Some c ∧
    ∀ r x, h !! r = Some x → h' !! r = Some x.
Proof.
  intros Hc Ho. exists (length h), (h ++ [ov ∪ c]).
  split; [by apply p_run_refs|].
  split; [by apply lookup_ge_None_2|].
  split; [rewrite list_lookup_middle; eauto|].
  split; [by apply lookup_app_l_Some|].
  intros r x. apply lookup_app_l_Some.
Qed.

(** C6.  Merging the object [r] into the target [e] with [i] gives
    the target every property of [r], with the value [r] has, and
    keeps the target's other properties; so [{a:1,b:2}] merged with
    [{b:3,c:4}] is [{a:1,b:3,c:4}]. *)
Theorem merge_right_biased h e r :
  e < length h → r ≠ e →
  ∃ h',
    M3905.i host e [VRef r] h = Ok (e, h') ∧
    (∀ k v, contents h r !! k = Some v → contents h' e !! k = Some v) ∧
    (∀ k, contents h r !! k = None → contents h' e !! k = contents h e !! k) ∧
    (contents h e = {[ "a" := VNum 1; "b" := VNum 2 ]} →
     contents h r = {[ "b" := VNum 3; "c" := VNum 4 ]} →
     contents h' e = {[ "a" := VNum 1; "b" := VNum 3; "c" := VNum 4 ]}).
Proof.
  intros Hlt Hne. eexists. split.
  { apply (i_run_refs host e [r] h Hlt). by repeat constructor. }
  simpl. rewrite contents_insert_eq by done. repeat split.
  - intros k v Hk. by apply lookup_union_Some_l.
  - intros k Hk. by apply lookup_union_r.
  - intros -> ->. by vm_compute.
Qed.

Lemma choose_result U s f a h m h1 :
  M3905.choose host U s f a h = Ok (m, h1) → truthy m = true ∨ m = a.
Proof.
  destruct (M3905.to_string host s) as [ks|] eqn:Hs;
    [|by rewrite choose_no_key by (by left)].
  destruct (M3905.to_string host f) as [kf|] eqn:Hf;
    [|by rewrite choose_no_key by (by right)].
  rewrite (choose_keys host _ _ _ _ ks kf) by done.
  unfold bind, or_else, ret.
  destruct (M3905.get host U _ h) as [[m1 h2]|]; [|done].
  destruct (truthy m1) eqn:E1; [intros [= <- _]; by left|].
  destruct (M3905.get host U _ h2) as [[m2 h3]|]; [|done].
  destruct (truthy m2) eqn:E2; [intros [= <- _]; by left|].
  destruct (truthy (lookup_chain M3905.d _)) eqn:E3; intros [= <- _]; eauto.
Qed.

(** C4, as amended.  For a string tag, a context object, a
    [parentName] prop that is absent or a primitive, and a [components]
    prop that is absent, is any value other than a function, or is a
    function that returns something other than [null] and [undefined],
    [u] returns an element; its renderer is a truthy value or the tag
    itself.  When the [components] prop is a function that returns
    [null] or [undefined], [u] throws a [TypeError]. *)
Theorem resolution_total h rc re (c props : obj) n tag ks :
  h !! rc = Some c → h !! re = Some props →
  props !! "mdxType" = Some (VStr tag) →
  props !! "originalType" = Some (VStr tag) →
  primitive_string (lookup_chain props "parentName") = Some ks →
  valid h (lookup_chain props "components") →
  let t := lookup_chain props "components" in
  let h0 := h ++ [without M3905.reserved (assigned props)] in
  ((∀ name, t = VFun name →
      ∃ v ext, host_call host name [VRef rc] h0 = Ok (v, ext) ∧
               nullish v = false) →
   ∃ m cfg h',
     M3905.u host (VRef rc) (VRef re) n h = Ok (VElement m cfg [], h') ∧
     (truthy m = true ∨ m = VStr tag)) ∧
  (∀ name v ext,
     t = VFun name → host_call host name [VRef rc] h0 = Ok (v, ext) →
     nullish v = true →
     M3905.u host (VRef rc) (VRef re) n h = Throw TypeError).
Proof.
  intros Hc Hprops Htag Horig Hks Hvalid t h0.
  pose proof (lookup_lt_Some _ _ _ Hc) as Hlt.
  rewrite (u_eq host re props) by done. cbv zeta. fold t h0.
  rewrite (lookup_chain_own _ _ _ Horig).
  split.
  - intros Hfun.
    assert (HU : ∃ U h1, M3905.p host (VRef rc) t h0 = Ok (U, h1) ∧
                         nullish U = false).
    { destruct (typeof_function t) eqn:Hfn.
      - destruct t as [| | | | |name| | | |] eqn:Et; try done.
        destruct (Hfun name eq_refl) as (v & ext & Hcall & Hv).
        exists v, (h0 ++ ext). split; [|done].
        unfold M3905.p, M3905.call. simpl. by rewrite Hcall.
      - destruct (p_total host (VRef rc) t h0) as (U & h1 & Hp & HUn);
          [by apply (valid_app h)|by apply valid_app|done|].
        exists U, h1. split; [done|].
        destruct (nullish U) eqn:E; [|done]. by specialize (HUn eq_refl). }
    destruct HU as (U & h1 & -> & HUn).
    destruct (choose_total host U (lookup_chain props "parentName")
                (lookup_chain props "mdxType") (VStr tag) ks tag h1)
      as [m Hm];
      [by apply to_string_primitive|by apply to_string_prop|done|].
    rewrite Hm. eexists m, _, _. split; [done|].
    by apply choose_result in Hm.
  - intros name v ext Ht Hcall Hv.
    unfold M3905.p, M3905.call. rewrite Ht. simpl. rewrite Hcall.
    by rewrite choose_nullish.
Qed.



(** C8.  With the context [{code: RendererX}], the element that [f]
    makes for the tag [code] with the props [{inline: true}] is
    rendered by [RendererX], with props that hold [inline: true]. *)
Theorem end_to_end_code h rc rp RendererX :
  h !! rc = Some {[ "code" := RendererX ]} →
  h !! rp = Some {[ "inline" := VBool true ]} →
  is_renderer RendererX = true →
  let out := (el <- M3905.kt host [VStr "code"; VRef rp] ;;
              React.render host (VRef rc) el) h in
  renderer_of out = Some RendererX ∧
  ∃ fwd, props_of out = Some fwd ∧ fwd !! "inline" = Some (VBool true).
Proof.
  intros Hc Hp Hren out. subst out.
  set (c := {[ "code" := RendererX ]} : obj) in *.
  set (cfg := mdx_config "code" (assigned {[ "inline" := VBool true ]})).
  set (props := with_children [] (without React.RESERVED_PROPS (assigned cfg))).
  run (f_run_tag host "code" rp _ [] h Hp).
  fold cfg. unfold React.render.
  rewrite (bind_Ok _ _ _ _ _
    (element_props_run host (length h) cfg [] (h ++ [cfg])
       (list_lookup_middle _ _ _ _ eq_refl))).
  fold props.
  set (h2 := (h ++ [cfg]) ++ [props]).
  assert (Hcfg : contents h2 (length h) = cfg).
  { unfold h2. rewrite contents_app_l by (rewrite length_app; simpl; lia).
    apply contents_new. }
  rewrite (bind_Ok _ _ h2 VNull h2).
  2:{ unfold React.element_ref. simpl.
      run (get_ref_run host (length h) "ref" h2).
      by rewrite Hcfg. }
  assert (Hc2 : h2 !! rc = Some c).
  { unfold h2. by do 2 apply lookup_app_l_Some. }
  assert (Hp2 : h2 !! length (h ++ [cfg]) = Some props).
  { unfold h2. by apply list_lookup_middle. }
  rewrite (u_run_plain host rc _ c props VNull "undefined" "code" h2 Hc2 Hp2)
    by done.
  split.
  - simpl. f_equal. unfold pick, or_else.
    rewrite (lookup_chain_scoped c "undefined" "code").
    change (c !! ("undefined" ++ "." ++ "code")%string) with (@None value).
    simpl. change (lookup_chain c "code") with RendererX.
    by rewrite is_renderer_truthy.
  - eexists. split.
    + simpl. rewrite lookup_app_r by lia.
      replace (S (length h2) - length h2) with 1 by lia. done.
    + done.
Qed.

End Properties.

(** C1 as stated fails: the override maps [code] to [Override], yet a
    [code] inside a [pre] is rendered by the context's entry for
    [pre.code]. *)
Lemma override_dominance_counterexample :
  let ctx : obj := {[ "pre.code" := Scoped ]} in
  let ov : obj := {[ "code" := Override ]} in
  let h := [ctx; ov; code_in_pre (Some (VRef 1))] in
  ov !! "code" = Some Override ∧
  renderer_of (M3905.u plain_host (VRef 0) (VRef 2) VNull h) = Some Scoped ∧
  renderer_of (M3905.u plain_host (VRef 0) (VRef 2) VNull h) ≠ Some Override.
Proof. vm_compute. repeat split; done. Qed.

(** C3 as stated fails: the context maps [code] to [Plain], yet a
    [code] inside a [pre] is rendered by its entry for [pre.code]. *)
Lemma context_hit_counterexample :
  let ctx : obj := {[ "code" := Plain; "pre.code" := Scoped ]} in
  let h := [ctx; code_in_pre None] in
  ctx !! "code" = Some Plain ∧
  renderer_of (M3905.u plain_host (VRef 0) (VRef 1) VNull h) = Some Scoped ∧
  renderer_of (M3905.u plain_host (VRef 0) (VRef 1) VNull h) ≠ Some Plain.
Proof. vm_compute. repeat split; done. Qed.

(** C2 as stated fails: with an empty context and no override the tag
    [inlineCode] is not rendered as itself but as [code]. *)
Lemma pass_through_counterexample :
  let ctx : obj := ∅ in
  let props : obj :=
    {[ "mdxType" := VStr "inlineCode"; "originalType" := VStr "inlineCode" ]} in
  let h := [ctx; props] in
  ctx !! "inlineCode" = None ∧ props !! "components" = None ∧
  renderer_of (M3905.u plain_host (VRef 0) (VRef 1) VNull h) = Some (VStr "code") ∧
  renderer_of (M3905.u plain_host (VRef 0) (VRef 1) VNull h)
    ≠ Some (VStr "inlineCode").
Proof. vm_compute. repeat split; done. Qed.

(** C4 as stated fails: a [components] prop that is a function returning
    [undefined] leaves [u] without an object to look the tag up in, and
    the lookup throws. *)
Lemma resolution_total_counterexample :
  let props : obj :=
    {[ "components" := VFun "merge"; "mdxType" := VStr "p";
       "originalType" := VStr "p" ]} in
  let h := [∅; props] in
  host_call plain_host "merge" [VRef 0]
    (h ++ [without M3905.reserved (assigned props)])
    = Ok (VUndefined, []) ∧
  M3905.u plain_host (VRef 0) (VRef 1) VNull h = Throw TypeError.
Proof. vm_compute. split; reflexivity. Qed.


(** ** The calls of the page

    The page of this chunk calls [kt("inlineCode", {parentName: "a"},
    "solido")] and [kt("code", {parentName: "pre", className:
    "language-json"}, ...)] under the default context [{}]. *)

Example page_inlineCode :
  let props : obj := {[ "parentName" := VStr "a" ]} in
  let out := (el <- M3905.kt plain_host [VStr "inlineCode"; VRef 1; VStr "solido"] ;;
              React.render plain_host (VRef 0) el) [∅; props] in
  renderer_of out = Some (VStr "code") ∧
  props_of out = Some {[ "ref" := VNull; "children" := VStr "solido" ]}.
Proof. vm_compute. split; reflexivity. Qed.

Example page_code :
  let props : obj :=
    {[ "parentName" := VStr "pre"; "className" := VStr "language-json" ]} in
  let out := (el <- M3905.kt plain_host [VStr "code"; VRef 1; VStr "{}"] ;;
              React.render plain_host (VRef 0) el) [∅; props] in
  renderer_of out = Some (VStr "code") ∧
  props_of out = Some {[ "ref" := VNull; "className" := VStr "language-json";
                         "children" := VStr "{}" ]}.
Proof. vm_compute. split; reflexivity. Qed.

(** ** The theorems at concrete inputs *)

Lemma override_dominance_witness :
  renderer_of
    (M3905.u plain_host (VRef 0) (VRef 2) VNull
       [{[ "code" := Plain ]}; {[ "code" := Override ]};
        code_in_pre (Some (VRef 1))])
  = Some Override.
Proof.
  apply (override_dominance_unless_scoped plain_host _ 0 2 1
           {[ "code" := Plain ]} (code_in_pre (Some (VRef 1)))
           {[ "code" := Override ]} VNull "code" "pre" Override);
    vm_compute; reflexivity.
Defined.

Lemma context_hit_witness :
  renderer_of
    (M3905.u plain_host (VRef 0) (VRef 1) VNull
       [{[ "code" := Plain ]}; code_in_pre None])
  = Some Plain.
Proof.
  apply (context_hit_unless_scoped plain_host _ 0 1
           {[ "code" := Plain ]} (code_in_pre None) VNull "code" "pre" Plain);
    vm_compute; reflexivity.
Defined.

Lemma pass_through_witness :
  renderer_of
    (M3905.u plain_host (VRef 0) (VRef 1) VNull
       [{[ "h1" := Plain ]}; code_in_pre None])
  = Some (VStr "code").
Proof.
  apply (pass_through_fallback plain_host _ 0 1
           {[ "h1" := Plain ]} (code_in_pre None) VNull "code" "pre");
    vm_compute; reflexivity.
Defined.

Lemma scoped_lookup_witness :
  renderer_of
    (M3905.u plain_host (VRef 0) (VRef 2) VNull
       [{[ "code" := Plain; "pre.code" := Scoped ]}; {[ "code" := Override ]};
        code_in_pre (Some (VRef 1))])
  = Some Scoped.
Proof.
  apply (scoped_lookup_precedence plain_host _ 0 2
           {[ "code" := Plain; "pre.code" := Scoped ]}
           (code_in_pre (Some (VRef 1))) {[ "code" := Override ]}
           VNull "code" "pre" Scoped).
  - reflexivity.
  - reflexivity.
  - right. exists 1. split; vm_compute; reflexivity.
  - vm_compute; reflexivity.
  - vm_compute; reflexivity.
  - vm_compute; reflexivity.
  - reflexivity.
Defined.

Lemma resolution_total_witness :
  ∃ m cfg h',
    M3905.u allocating_host (VRef 0) (VRef 1) VNull
      [∅; {[ "components" := VFun "merge"; "mdxType" := VStr "p";
             "originalType" := VStr "p" ]}]
    = Ok (VElement m cfg [], h') ∧
    (truthy m = true ∨ m = VStr "p").
Proof.
  destruct (resolution_total allocating_host
              [∅; {[ "components" := VFun "merge"; "mdxType" := VStr "p";
                     "originalType" := VStr "p" ]}] 0 1 ∅
              {[ "components" := VFun "merge"; "mdxType" := VStr "p";
                 "originalType" := VStr "p" ]} VNull "p" "undefined")
    as [Helement _].
  - reflexivity.
  - reflexivity.
  - vm_compute; reflexivity.
  - vm_compute; reflexivity.
  - vm_compute; reflexivity.
  - vm_compute. exact I.
  - apply Helement. intros name _. eexists _, _. split; reflexivity.
Defined.

Lemma extend_witness :
  ∃ r' h',
    M3905.p plain_host (VRef 0) (VRef 1) two_objects = Ok (VRef r', h') ∧
    two_objects !! r' = None ∧
    is_Some (h' !! r') ∧
    h' !! 0 = Some {[ "a" := VNum 1; "b" := VNum 2 ]} ∧
    ∀ r x, two_objects !! r = Some x → h' !! r = Some x.
Proof.
  apply (extend_non_mutating plain_host two_objects 0 1
           {[ "a" := VNum 1; "b" := VNum 2 ]}
           {[ "b" := VNum 3; "c" := VNum 4 ]}); reflexivity.
Defined.

Lemma merge_witness :
  ∃ h',
    M3905.i plain_host 0 [VRef 1] two_objects = Ok (0, h') ∧
    contents h' 0 = {[ "a" := VNum 1; "b" := VNum 3; "c" := VNum 4 ]}.
Proof.
  destruct (merge_right_biased plain_host two_objects 0 1)
    as (h' & Hrun & _ & _ & Hexample).
  - simpl; lia.
  - lia.
  - exists h'. split; [exact Hrun|]. apply Hexample; reflexivity.
Defined.

Lemma end_to_end_witness :
  let out :=
    (el <- M3905.kt plain_host [VStr "code"; VRef 1] ;;
     React.render plain_host (VRef 0) el)
      [{[ "code" := VFun "RendererX" ]}; {[ "inline" := VBool true ]}] in
  renderer_of out = Some (VFun "RendererX") ∧
  ∃ fwd, props_of out = Some fwd ∧ fwd !! "inline" = Some (VBool true).
Proof.
  apply (end_to_end_code plain_host
           [{[ "code" := VFun "RendererX" ]}; {[ "inline" := VBool true ]}]
           0 1 (VFun "RendererX")); reflexivity.
Defined.


(** ** Further runs of the element factory and the context reader *)

Section MoreSpecs.
Context (host : Host).


(** [f] on a string tag without props. *)
Lemma f_run_null tag n children h :
  nullish n = true →
  M3905.f host (VStr tag :: n :: children) h
  = Ok (VElement (VHost MDXCreateElement) (VRef (length h)) children,
        h ++ [mdx_config tag ∅]).
Proof.
  intros Hn. unfold M3905.f. cbv zeta.
  change (nth_arg (VStr tag :: n :: children) 0) with (VStr tag).
  change (nth_arg (VStr tag :: n :: children) 1) with n.
  assert (Hfalsy : truthy n = false) by (by destruct n).
  rewrite Hfalsy. rewrite (bind_Ok _ _ h n h) by done.
  cbn [typeof_string orb].
  rewrite (bind_Ok _ _ h (length h) (h ++ [∅])) by done.
  rewrite (bind_Ok _ _ (h ++ [∅]) [] (h ++ [∅])).
  2:{ unfold M3905.keys, bind. by rewrite own_props_nullish. }
  simpl forEach. rewrite (bind_Ok _ _ (h ++ [∅]) tt (h ++ [∅])) by done.
  unfold bind, assign, put, createElement_apply, createElement, ret. simpl.
  rewrite f_array. do 2 f_equal.
  rewrite contents_insert_eq, list_insert_insert_eq
    by (rewrite length_app; simpl; lia).
  by rewrite contents_new, insert_new.
Qed.

(** [p] with an object override over a [null] or [undefined] context:
    the empty object standing in for the context is allocated too. *)
Lemma p_run_null_ctx n ro (ov : obj) h :
  nullish n = true → h !! ro = Some ov →
  M3905.p host n (VRef ro) h = Ok (VRef (length h), h ++ [ov; ∅]).
Proof.
  intros Hn Ho. pose proof (lookup_lt_Some _ _ _ Ho) as Hlto.
  unfold M3905.p. simpl.
  rewrite (bind_Ok _ _ h (length h) (h ++ [∅])) by done.
  rewrite (bind_Ok _ _ (h ++ [∅]) (length h) (h ++ [∅; ∅])).
  2:{ unfold M3905.i. simpl M3905.i_from.
      rewrite (bind_Ok _ _ (h ++ [∅]) tt (h ++ [∅; ∅])); [done|].
      rewrite (bind_Ok _ _ (h ++ [∅]) tt (h ++ [∅; ∅])); [done|].
      rewrite (i_turn_nullish host _ _ _ _ Hn).
      rewrite i_turn_ref;
        [|rewrite !length_app; simpl; lia|rewrite length_app; simpl; lia].
      rewrite <- (assoc_L (++)). simpl.
      pose proof (contents_at h [∅; ∅] 0) as E0.
      pose proof (contents_at h [∅; ∅] 1) as E1.
      rewrite Nat.add_0_r in E0.
      replace (length (h ++ [(∅ : obj)])) with (length h + 1)
        by (rewrite length_app; simpl; lia).
      rewrite E0, E1. simpl. rewrite insert_at. simpl.
      by rewrite (left_id_L ∅ (∪)). }
  rewrite (bind_Ok _ _ _ _ _
    (i_run_refs host (length h) [ro] (h ++ [∅; ∅])
       ltac:(rewrite length_app; simpl; lia) ltac:(repeat constructor; lia))).
  simpl. rewrite insert_at. simpl.
  pose proof (contents_at h [∅; ∅] 0) as E0. rewrite Nat.add_0_r in E0.
  rewrite E0. simpl.
  rewrite contents_app_l, (contents_Some _ _ _ Ho) by done.
  by rewrite (right_id_L ∅ (∪)).
Qed.








(** Without a text for [parentName] or [mdxType] the lookup throws. *)
Lemma u_no_key rc re (c props ov : obj) n h :
  h !! rc = Some c → h !! re = Some props → components_of h props ov →
  M3905.to_string host (lookup_chain props "parentName") = None ∨
  M3905.to_string host (lookup_chain props "mdxType") = None →
  M3905.u host (VRef rc) (VRef re) n h = Throw TypeError.
Proof.
  intros Hc Hprops [[Ht ->]|(ro & Ht & Ho)] Hkey.
  - rewrite (u_eq host re props);
      [|done|by eapply lookup_lt_Some
       |by destruct (lookup_chain props "components")].
    simpl. rewrite p_run_falsy by done. by rewrite choose_no_key.
  - rewrite (u_eq host re props);
      [|done|by eapply lookup_lt_Some|rewrite Ht; by eapply lookup_lt_Some].
    simpl. rewrite Ht.
    rewrite (p_run_refs host rc ro c ov) by (by apply lookup_app_l_Some).
    by rewrite choose_no_key.
Qed.

(** [c] on a props object. *)
Lemma c_run rz (z : obj) ctx h U h1 :
  h !! rz = Some z →
  M3905.p host ctx (lookup_chain z "components") h = Ok (U, h1) →
  (∃ ext, h1 = h ++ ext) →
  M3905.c host ctx (VRef rz) h
  = Ok (VElement (VHost Provider) (VRef (length h1))
          [lookup_chain z "children"],
        h1 ++ [{[ "value" := U ]}]).
Proof.
  intros Hz Hp [ext ->]. unfold M3905.c.
  run (get_ref_run host rz "components" h).
  rewrite (contents_Some _ _ _ Hz). run Hp.
  rewrite (bind_Ok _ _ (h ++ ext) (length (h ++ ext))
             ((h ++ ext) ++ [{[ "value" := U ]}])) by done.
  run (get_ref_run host rz "children" ((h ++ ext) ++ [{[ "value" := U ]}])).
  rewrite <- (assoc_L (++)), contents_app_l by (by eapply lookup_lt_Some).
  by rewrite (contents_Some _ _ _ Hz).
Qed.

(** [c] with an object override. *)
Lemma provider_extends_run h rc rz ro (c z ov : obj) :
  h !! rc = Some c → h !! rz = Some z → h !! ro = Some ov →
  z !! "components" = Some (VRef ro) →
  ∃ pv v h',
    M3905.c host (VRef rc) (VRef rz) h
    = Ok (VElement (VHost Provider) (VRef pv) [lookup_chain z "children"], h') ∧
    h' !! pv = Some {[ "value" := VRef v ]} ∧
    h' !! v = Some (ov ∪ c) ∧
    ∀ q y, h !! q = Some y → h' !! q = Some y.
Proof.
  intros Hc Hz Ho Hcomp.
  pose proof (lookup_chain_own _ _ _ Hcomp) as Ht.
  exists (S (length h)), (length h), (h ++ [ov ∪ c; {[ "value" := VRef (length h) ]}]).
  split.
  { rewrite (c_run rz z (VRef rc) h (VRef (length h)) (h ++ [ov ∪ c]));
      [|done|rewrite Ht; by apply p_run_refs|by eexists].
    rewrite length_app, <- (assoc_L (++)). simpl. by rewrite Nat.add_1_r. }
  split.
  { replace (h ++ [ov ∪ c; {[ "value" := VRef (length h) ]}])
      with ((h ++ [ov ∪ c]) ++ [{[ "value" := VRef (length h) ]} : obj])
      by (by rewrite <- (assoc_L (++))).
    apply list_lookup_middle. rewrite length_app. simpl. lia. }
  split; [by apply list_lookup_middle|].
  intros q y. apply lookup_app_l_Some.
Qed.

End MoreSpecs.

(** ** Further properties of the runtime *)

Section Further.
Context (host : Host).


(** X2.  A [null] or [undefined] source is skipped by [i]: the target
    keeps exactly its properties, and no existing object changes. *)
Theorem i_skips_null h e arg :
  e < length h → nullish arg = true →
  ∃ h',
    M3905.i host e [arg] h = Ok (e, h') ∧
    contents h' e = contents h e ∧
    ∀ q z, h !! q = Some z → h' !! q = Some z.
Proof.
  intros Hlt Hn. exists (h ++ [∅]). split; [|split].
  - unfold M3905.i. simpl M3905.i_from.
    rewrite (bind_Ok _ _ h tt (h ++ [∅])); [done|].
    rewrite (bind_Ok _ _ h tt (h ++ [∅])); [done|].
    rewrite (i_turn_nullish host _ _ _ _ Hn).
    rewrite i_turn_ref; [|rewrite length_app; simpl; lia|lia].
    rewrite contents_new, (left_id_L ∅ (∪)). f_equal. f_equal.
    apply list_insert_id. apply contents_lt. rewrite length_app. lia.
  - by apply contents_app_l.
  - intros q z. apply lookup_app_l_Some.
Qed.

(** X3.  With several sources [i] lets the later one win: a key of the
    second source has the second source's value, another key of the
    first source has the first source's value, and any other key keeps
    the target's. *)
Theorem i_later_source_wins h e r1 r2 :
  e < length h → r1 ≠ e → r2 ≠ e →
  ∃ h',
    M3905.i host e [VRef r1; VRef r2] h = Ok (e, h') ∧
    ∀ k, contents h' e !! k =
      match contents h r2 !! k with
      | Some v => Some v
      | None => match contents h r1 !! k with
                | Some v => Some v
                | None => contents h e !! k
                end
      end.
Proof.
  intros Hlt H1 H2. eexists. split.
  { apply (i_run_refs host e [r1; r2] h Hlt). by repeat constructor. }
  intros k. simpl. rewrite contents_insert_eq by done.
  rewrite !lookup_union.
  by destruct (contents h r2 !! k), (contents h r1 !! k), (contents h e !! k).
Qed.

(** X4.  On plain objects the three ways [i] copies a source (property
    by property through [o], [Object.defineProperties], and property by
    property through [Object.defineProperty]) agree: the outcome does
    not depend on the host's feature test nor on the position of a
    source, and it is the target with the own properties of each source
    written over it, from the first source to the last. *)
Theorem i_same_on_every_host (host' : Host) h e rs :
  e < length h → Forall (λ r, r ≠ e) rs →
  M3905.i host e (VRef <$> rs) h = M3905.i host' e (VRef <$> rs) h ∧
  M3905.i host e (VRef <$> rs) h
  = Ok (e, <[e := foldl (λ acc r, contents h r ∪ acc) (contents h e) rs]> h).
Proof.
  intros Hlt Hrs. by rewrite (i_run_refs host), (i_run_refs host').
Qed.

(** X5.  Merging in two calls is merging in one: [i(i(e, ...xs), ...ys)]
    and [i(e, ...xs, ...ys)] leave the same store. *)
Theorem i_in_two_calls h e rs1 rs2 :
  e < length h → Forall (λ r, r ≠ e) rs1 → Forall (λ r, r ≠ e) rs2 →
  (y <- M3905.i host e (VRef <$> rs1) ;; M3905.i host y (VRef <$> rs2)) h
  = M3905.i host e (VRef <$> (rs1 ++ rs2)) h.
Proof.
  intros Hlt H1 H2.
  run (i_run_refs host e rs1 h Hlt H1).
  rewrite (i_run_refs host e rs2) by (by rewrite ?length_insert).
  rewrite (i_run_refs host e (rs1 ++ rs2)) by (done || by apply Forall_app).
  rewrite contents_insert_eq, list_insert_insert_eq, foldl_app by done.
  do 3 f_equal.
  apply (foldl_Forall_ext _ _ _ _ H2).
  intros acc r Hr. by rewrite contents_insert_ne.
Qed.

(** X6.  Extending twice nests: the context extended by [o1] and then
    by [o2] holds [o2]'s properties over [o1]'s over the context's, in a
    second new object; the first extension is left as it was built. *)
Theorem nested_extension h rc r1 r2 (c o1 o2 : obj) :
  h !! rc = Some c → h !! r1 = Some o1 → h !! r2 = Some o2 →
  ∃ inner outer h',
    (n1 <- M3905.p host (VRef rc) (VRef r1) ;; M3905.p host n1 (VRef r2)) h
    = Ok (VRef outer, h') ∧
    h' !! inner = Some (o1 ∪ c) ∧
    h' !! outer = Some (o2 ∪ (o1 ∪ c)) ∧
    inner ≠ outer ∧ h !! inner = None ∧ h !! outer = None ∧
    ∀ q z, h !! q = Some z → h' !! q = Some z.
Proof.
  intros Hc H1 H2.
  exists (length h), (S (length h)), (h ++ [o1 ∪ c; o2 ∪ (o1 ∪ c)]).
  split.
  { run (p_run_refs host rc r1 c o1 h Hc H1).
    rewrite (p_run_refs host (length h) r2 (o1 ∪ c) o2).
    - rewrite length_app, <- (assoc_L (++)). simpl. by rewrite Nat.add_1_r.
    - by apply list_lookup_middle.
    - by apply lookup_app_l_Some. }
  split; [by apply list_lookup_middle|].
  split.
  { replace (h ++ [o1 ∪ c; o2 ∪ (o1 ∪ c)])
      with ((h ++ [o1 ∪ c]) ++ [o2 ∪ (o1 ∪ c)])
      by (by rewrite <- (assoc_L (++))).
    apply list_lookup_middle. rewrite length_app. simpl. lia. }
  split; [lia|].
  split; [by apply lookup_ge_None_2|].
  split; [apply lookup_ge_None_2; lia|].
  intros q z. apply lookup_app_l_Some.
Qed.

(** X7.  A [components] prop that is a function replaces the
    components object instead of extending it: the renderer is looked up
    in the object the function returns, and the context counts only as
    far as the function copied it.  ([parentName] and [mdxType] are
    absent or primitives, with the texts [ks] and [kf].) *)
Theorem function_override_replaces
    h re (props : obj) ctx n name r ext (U : obj) ks kf :
  h !! re = Some props → valid h ctx →
  props !! "components" = Some (VFun name) →
  primitive_string (lookup_chain props "parentName") = Some ks →
  primitive_string (lookup_chain props "mdxType") = Some kf →
  let h0 := h ++ [without M3905.reserved (assigned props)] in
  host_call host name [ctx] h0 = Ok (VRef r, ext) →
  (h0 ++ ext) !! r = Some U →
  renderer_of (M3905.u host ctx (VRef re) n h)
  = Some (pick U ks kf (lookup_chain props "originalType")).
Proof.
  intros Hprops Hctx Hcomp Hks Hkf h0 Hcall HU.
  pose proof (lookup_chain_own _ _ _ Hcomp) as Ht.
  rewrite (u_eq host re props) by (done || by rewrite Ht).
  simpl. rewrite Ht. unfold M3905.p, M3905.call. simpl. fold h0.
  rewrite Hcall.
  rewrite (choose_run_ref host _ _ _ _ ks kf) by (by apply to_string_primitive).
  by rewrite (contents_Some _ _ _ HU).
Qed.

(** X8.  The built-in table: a tag that [d] names ([inlineCode],
    [wrapper]) and that the components object leaves without a truthy
    entry is rendered by [d]'s entry, not as itself.  ([parentName] is
    absent or a primitive, with the text [ks].) *)
Theorem built_in_default h rc re (c props ov : obj) n tag ks R :
  h !! rc = Some c → h !! re = Some props → components_of h props ov →
  props !! "mdxType" = Some (VStr tag) →
  primitive_string (lookup_chain props "parentName") = Some ks →
  M3905.d !! tag = Some R →
  (ov ∪ c) !! tag = None →
  truthy (default VUndefined ((ov ∪ c) !! (ks ++ "." ++ tag)%string)) = false →
  renderer_of (M3905.u host (VRef rc) (VRef re) n h) = Some R.
Proof.
  intros Hc Hprops Hov Htag Hks Hd Hnone Hscoped.
  rewrite (u_resolves host rc re c props ov n ks tag);
    [|done|done|done|by apply to_string_primitive|by apply to_string_prop].
  f_equal. unfold pick, or_else.
  rewrite lookup_chain_scoped, Hscoped.
  rewrite (lookup_chain_own _ _ _ Hd).
  unfold M3905.d in Hd.
  apply lookup_insert_Some in Hd as [[<- <-]|[_ Hd]].
  - unfold lookup_chain. by rewrite Hnone.
  - apply lookup_singleton_Some in Hd as [<- <-].
    unfold lookup_chain. by rewrite Hnone.
Qed.

(** X9.  A tag that names a member every object inherits
    ([constructor], [toString], ...) and has no entry of its own in the
    components object is rendered by the inherited member: the lookup
    [u[f]] walks the prototype chain.  ([parentName] is absent or a
    primitive, with the text [ks].) *)
Theorem inherited_member_chosen h rc re (c props ov : obj) n tag ks R :
  h !! rc = Some c → h !! re = Some props → components_of h props ov →
  props !! "mdxType" = Some (VStr tag) →
  primitive_string (lookup_chain props "parentName") = Some ks →
  Object_prototype !! tag = Some R →
  (ov ∪ c) !! tag = None →
  truthy (default VUndefined ((ov ∪ c) !! (ks ++ "." ++ tag)%string)) = false →
  renderer_of (M3905.u host (VRef rc) (VRef re) n h) = Some R.
Proof.
  intros Hc Hprops Hov Htag Hks Hproto Hnone Hscoped.
  rewrite (u_resolves host rc re c props ov n ks tag);
    [|done|done|done|by apply to_string_primitive|by apply to_string_prop].
  f_equal. unfold pick, or_else.
  rewrite lookup_chain_scoped, Hscoped.
  assert (Hread : lookup_chain (ov ∪ c) tag = R)
    by (unfold lookup_chain; by rewrite Hnone, Hproto).
  rewrite Hread.
  assert (HR : truthy R = true).
  { apply elem_of_list_to_map_2 in Hproto.
    repeat (apply elem_of_cons in Hproto as [[= -> ->]|Hproto]; [done|]).
    by apply elem_of_nil in Hproto. }
  by rewrite HR.
Qed.

(** X10.  Props without [parentName] are looked up under the scoped key
    [undefined.tag]: an entry there is chosen before the entry for the
    tag. *)
Theorem missing_parent_reads_undefined h rc re (c props ov : obj) n tag R :
  h !! rc = Some c → h !! re = Some props → override_of h props ov →
  props !! "mdxType" = Some (VStr tag) →
  props !! "parentName" = None →
  (ov ∪ c) !! ("undefined." ++ tag)%string = Some R →
  is_renderer R = true →
  renderer_of (M3905.u host (VRef rc) (VRef re) n h) = Some R.
Proof.
  intros Hc Hprops Hov Htag Hparent HR Hren.
  rewrite (u_resolves host rc re c props ov n "undefined" tag);
    [|done|done|by apply override_components
     |by apply to_string_no_parent|by apply to_string_prop].
  f_equal. unfold pick, or_else.
  rewrite (lookup_chain_scoped _ "undefined" tag).
  change ("undefined" ++ "." ++ tag)%string with ("undefined." ++ tag)%string.
  rewrite HR. simpl. by rewrite is_renderer_truthy.
Qed.


(** X12.  Under a [null] or [undefined] context an object override
    stands alone: the renderer it gives the tag is chosen.
    ([parentName] is absent or a primitive, with the text [ks].) *)
Theorem null_context_with_override h re ro (props ov : obj) ctx n tag ks R :
  h !! re = Some props → h !! ro = Some ov → nullish ctx = true →
  props !! "components" = Some (VRef ro) →
  props !! "mdxType" = Some (VStr tag) →
  primitive_string (lookup_chain props "parentName") = Some ks →
  ov !! tag = Some R → is_renderer R = true →
  truthy (default VUndefined (ov !! (ks ++ "." ++ tag)%string)) = false →
  renderer_of (M3905.u host ctx (VRef re) n h) = Some R.
Proof.
  intros Hprops Ho Hctx Hcomp Htag Hks HR Hren Hscoped.
  pose proof (lookup_chain_own _ _ _ Hcomp) as Ht.
  pose proof (lookup_lt_Some _ _ _ Ho) as Hlto.
  rewrite (u_eq host re props);
    [|done|by destruct ctx|by rewrite Ht].
  simpl. rewrite Ht.
  rewrite (p_run_null_ctx host ctx ro ov) by (done || by apply lookup_app_l_Some).
  rewrite (choose_run_ref host _ _ _ _ ks tag);
    [|by apply to_string_primitive|by apply to_string_prop].
  pose proof (contents_at (h ++ [without M3905.reserved (assigned props)])
                [ov; ∅] 0) as E0.
  rewrite Nat.add_0_r in E0. rewrite E0. simpl.
  f_equal. unfold pick, or_else.
  rewrite lookup_chain_scoped, Hscoped.
  rewrite (lookup_chain_own ov tag R) by done.
  by rewrite is_renderer_truthy.
Qed.




(** X16.  For a string tag and [null] or [undefined] props the config
    [f] builds holds [originalType] and [mdxType] and nothing else. *)
Theorem kt_without_props h tag n children :
  nullish n = true →
  ∃ cfg h',
    M3905.kt host (VStr tag :: n :: children) h
    = Ok (VElement (VHost MDXCreateElement) (VRef cfg) children, h') ∧
    h !! cfg = None ∧
    h' !! cfg = Some {[ "originalType" := VStr tag; "mdxType" := VStr tag ]}.
Proof.
  intros Hn. exists (length h), (h ++ [mdx_config tag ∅]).
  split; [by apply f_run_null|].
  split; [by apply lookup_ge_None_2|].
  rewrite list_lookup_middle by done. reflexivity.
Qed.

(** X17.  An element whose type is not a string and whose props carry
    no truthy [mdxType] is not wrapped: [f] hands type, props and
    children to [createElement] as they are and allocates nothing. *)
Theorem kt_passes_through h e n children :
  typeof_string e = false →
  truthy n = false ∨
    (∃ r, n = VRef r ∧ truthy (lookup_chain (contents h r) "mdxType") = false) →
  M3905.kt host (e :: n :: children) h = Ok (VElement e n children, h).
Proof.
  intros He Hn. unfold M3905.kt, M3905.f. cbv zeta.
  change (nth_arg (e :: n :: children) 0) with e.
  change (nth_arg (e :: n :: children) 1) with n.
  rewrite He. destruct Hn as [Hn|(r & -> & Hm)].
  - rewrite Hn. rewrite (bind_Ok _ _ h n h) by done. by rewrite Hn.
  - cbn [truthy]. run (get_ref_run host r "mdxType" h). by rewrite Hm.
Qed.




(** X21.  The provider [c] with an object as [components] provides a
    new object, the context extended by that object, and hands on its
    [children] prop as the only child; the context and the override are
    untouched. *)
Theorem provider_extends h rc rz ro (c z ov : obj) :
  h !! rc = Some c → h !! rz = Some z → h !! ro = Some ov →
  z !! "components" = Some (VRef ro) →
  ∃ pv v h',
    M3905.Zo host (VRef rc) (VRef rz) h
    = Ok (VElement (VHost Provider) (VRef pv) [lookup_chain z "children"], h') ∧
    h' !! pv = Some {[ "value" := VRef v ]} ∧
    h !! v = None ∧ h' !! v = Some (ov ∪ c) ∧
    ∀ q y, h !! q = Some y → h' !! q = Some y.
Proof.
  intros Hc Hz Ho Hcomp.
  pose proof (lookup_chain_own _ _ _ Hcomp) as Ht.
  exists (S (length h)), (length h),
    (h ++ [ov ∪ c; {[ "value" := VRef (length h) ]}]).
  split.
  { unfold M3905.Zo.
    rewrite (c_run host rz z (VRef rc) h (VRef (length h)) (h ++ [ov ∪ c]));
      [|done|rewrite Ht; by apply p_run_refs|by eexists].
    rewrite length_app, <- (assoc_L (++)). simpl. by rewrite Nat.add_1_r. }
  split.
  { replace (h ++ [ov ∪ c; {[ "value" := VRef (length h) ]}])
      with ((h ++ [ov ∪ c]) ++ [{[ "value" := VRef (length h) ]} : obj])
      by (by rewrite <- (assoc_L (++))).
    apply list_lookup_middle. rewrite length_app. simpl. lia. }
  split; [by apply lookup_ge_None_2|].
  split; [by apply list_lookup_middle|].
  intros q y. apply lookup_app_l_Some.
Qed.

(** X22.  The provider [c] without [components] (or with a falsy one)
    provides the very value it read from the enclosing provider: no
    copy is made. *)
Theorem provider_without_components h rz (z : obj) ctx :
  h !! rz = Some z →
  truthy (lookup_chain z "components") = false →
  ∃ pv h',
    M3905.Zo host ctx (VRef rz) h
    = Ok (VElement (VHost Provider) (VRef pv) [lookup_chain z "children"], h') ∧
    h' !! pv = Some {[ "value" := ctx ]} ∧
    ∀ q y, h !! q = Some y → h' !! q = Some y.
Proof.
  intros Hz Ht. exists (length h), (h ++ [{[ "value" := ctx ]}]).
  split.
  { unfold M3905.Zo.
    rewrite (c_run host rz z ctx h ctx h);
      [done|done|by apply p_run_falsy|exists []; by rewrite app_nil_r]. }
  split; [by apply list_lookup_middle|].
  intros q y. apply lookup_app_l_Some.
Qed.

(** X23.  An override given to the provider and the same override given
    to the element resolve alike: under the value that [c] provides for
    the override [ov], an element without [components] gets the
    renderer it would get, under the outer context, with [ov] as its
    [components] prop. *)
Theorem provider_same_as_override h rc rz ro re re' (c z ov props : obj) n :
  h !! rc = Some c → h !! rz = Some z → h !! ro = Some ov →
  z !! "components" = Some (VRef ro) →
  h !! re = Some props → props !! "components" = None →
  h !! re' = Some (<[ "components" := VRef ro ]> props) →
  ∃ pv v children h',
    M3905.Zo host (VRef rc) (VRef rz) h
    = Ok (VElement (VHost Provider) (VRef pv) children, h') ∧
    h' !! pv = Some {[ "value" := VRef v ]} ∧
    renderer_of (M3905.u host (VRef v) (VRef re) n h')
    = renderer_of (M3905.u host (VRef rc) (VRef re') n h).
Proof.
  intros Hc Hz Ho Hcomp Hprops Hnone Hprops'.
  destruct (provider_extends_run host h rc rz ro c z ov Hc Hz Ho Hcomp)
    as (pv & v & h' & Hrun & Hpv & Hv & Hframe).
  exists pv, v, [lookup_chain z "children"], h'.
  split; [done|]. split; [done|].
  set (props' := <[ "components" := VRef ro ]> props) in *.
  assert (Hsame : ∀ k, k ≠ "components" →
            lookup_chain props' k = lookup_chain props k).
  { intros k Hk. unfold lookup_chain, props'. by rewrite lookup_insert_ne. }
  assert (Hinner : components_of h' props ∅).
  { left. by rewrite lookup_chain_components. }
  assert (Houter : components_of h props' ov).
  { right. exists ro. split; [|done].
    apply lookup_chain_own. apply lookup_insert_eq. }
  destruct (M3905.to_string host (lookup_chain props "parentName"))
    as [ks|] eqn:Hks.
  - destruct (M3905.to_string host (lookup_chain props "mdxType"))
      as [kf|] eqn:Hkf.
    + rewrite (u_resolves host v re (ov ∪ c) props ∅ n ks kf)
        by (done || by apply Hframe).
      rewrite (u_resolves host rc re' c props' ov n ks kf)
        by (done || by rewrite Hsame).
      by rewrite (left_id_L ∅ (∪)), Hsame.
    + rewrite (u_no_key host v re (ov ∪ c) props ∅)
        by (done || (by apply Hframe) || by right).
      by rewrite (u_no_key host rc re' c props' ov)
        by (done || (right; by rewrite Hsame)).
  - rewrite (u_no_key host v re (ov ∪ c) props ∅)
      by (done || (by apply Hframe) || by left).
    by rewrite (u_no_key host rc re' c props' ov)
      by (done || (left; by rewrite Hsame)).
Qed.


End Further.

(** ** The further properties at concrete inputs *)


Lemma i_skips_null_witness :
  ∃ h',
    M3905.i plain_host 0 [VNull] sample_store = Ok (0, h') ∧
    contents h' 0 = sample_context.
Proof.
  destruct (i_skips_null plain_host sample_store 0 VNull)
    as (h' & Hrun & Hsame & _).
  - simpl; lia.
  - reflexivity.
  - exists h'. split; [exact Hrun|exact Hsame].
Defined.

Lemma i_later_source_wins_witness :
  ∃ h',
    M3905.i plain_host 1 [VRef 0; VRef 2] sample_store = Ok (1, h') ∧
    contents h' 1 !! "mdxType" = Some (VStr "p") ∧
    contents h' 1 !! "h1" = Some Heading ∧
    contents h' 1 !! "p" = Some Callout.
Proof.
  destruct (i_later_source_wins plain_host sample_store 1 0 2)
    as (h' & Hrun & Hk).
  - simpl; lia.
  - lia.
  - lia.
  - exists h'. repeat split; [exact Hrun|..].
    + exact (Hk "mdxType").
    + exact (Hk "h1").
    + exact (Hk "p").
Defined.

Lemma i_same_on_every_host_witness :
  M3905.i plain_host 1 (VRef <$> [0; 2]) sample_store
  = M3905.i legacy_host 1 (VRef <$> [0; 2]) sample_store ∧
  M3905.i plain_host 1 (VRef <$> [0; 2]) sample_store
  = Ok (1, <[1 := props_of_tag "p" ∪ (sample_context ∪ sample_override)]>
             sample_store).
Proof.
  apply (i_same_on_every_host plain_host legacy_host sample_store 1 [0; 2]).
  - simpl; lia.
  - repeat constructor; lia.
Defined.

Lemma i_in_two_calls_witness :
  (y <- M3905.i plain_host 1 (VRef <$> [0]) ;;
   M3905.i plain_host y (VRef <$> [2])) sample_store
  = M3905.i plain_host 1 (VRef <$> ([0] ++ [2])) sample_store.
Proof.
  apply (i_in_two_calls plain_host sample_store 1 [0] [2]).
  - simpl; lia.
  - repeat constructor; lia.
  - repeat constructor; lia.
Defined.

Lemma nested_extension_witness :
  ∃ inner outer h',
    (n1 <- M3905.p plain_host (VRef 0) (VRef 1) ;;
     M3905.p plain_host n1 (VRef 2)) sample_store = Ok (VRef outer, h') ∧
    h' !! inner = Some (sample_override ∪ sample_context) ∧
    h' !! outer
    = Some (props_of_tag "p" ∪ (sample_override ∪ sample_context)).
Proof.
  destruct (nested_extension plain_host sample_store 0 1 2
              sample_context sample_override (props_of_tag "p")
              eq_refl eq_refl eq_refl)
    as (inner & outer & h' & Hrun & Hinner & Houter & _).
  exists inner, outer, h'. repeat split; assumption.
Defined.

Lemma function_override_replaces_witness :
  renderer_of (M3905.u replacing_host (VRef 1) (VRef 5) VNull sample_store)
  = Some Heading.
Proof.
  etrans.
  - apply (function_override_replaces replacing_host sample_store 5
             (<[ "components" := VFun "merge" ]> (props_of_tag "p"))
             (VRef 1) VNull "merge" 8 [{[ "p" := Heading ]}]
             {[ "p" := Heading ]} "undefined" "p").
    + reflexivity.
    + simpl; lia.
    + reflexivity.
    + reflexivity.
    + reflexivity.
    + reflexivity.
    + reflexivity.
  - reflexivity.
Defined.

Lemma built_in_default_witness :
  renderer_of
    (M3905.u plain_host (VRef 0) (VRef 1) VNull
       [sample_context; props_of_tag "inlineCode"])
  = Some (VStr "code").
Proof.
  apply (built_in_default plain_host _ 0 1 sample_context
           (props_of_tag "inlineCode") ∅ VNull "inlineCode" "undefined"
           (VStr "code")).
  - reflexivity.
  - reflexivity.
  - left. split; reflexivity.
  - reflexivity.
  - reflexivity.
  - reflexivity.
  - reflexivity.
  - reflexivity.
Defined.

Lemma inherited_member_chosen_witness :
  renderer_of
    (M3905.u plain_host (VRef 0) (VRef 1) VNull
       [sample_context; props_of_tag "constructor"])
  = Some (VFun "Object").
Proof.
  apply (inherited_member_chosen plain_host _ 0 1 sample_context
           (props_of_tag "constructor") ∅ VNull "constructor" "undefined"
           (VFun "Object")).
  - reflexivity.
  - reflexivity.
  - left. split; reflexivity.
  - reflexivity.
  - reflexivity.
  - reflexivity.
  - reflexivity.
  - reflexivity.
Defined.

Lemma missing_parent_reads_undefined_witness :
  renderer_of
    (M3905.u plain_host (VRef 0) (VRef 1) VNull
       [sample_context; props_of_tag "em"])
  = Some Heading.
Proof.
  apply (missing_parent_reads_undefined plain_host _ 0 1 sample_context
           (props_of_tag "em") ∅ VNull "em" Heading).
  - reflexivity.
  - reflexivity.
  - left. split; reflexivity.
  - reflexivity.
  - reflexivity.
  - reflexivity.
  - reflexivity.
Defined.


Lemma null_context_with_override_witness :
  renderer_of (M3905.u plain_host VNull (VRef 3) VNull sample_store)
  = Some Callout.
Proof.
  apply (null_context_with_override plain_host sample_store 3 1
           (<[ "components" := VRef 1 ]> (props_of_tag "p")) sample_override
           VNull VNull "p" "undefined" Callout); reflexivity.
Defined.




Lemma kt_without_props_witness :
  ∃ cfg h',
    M3905.kt plain_host [VStr "p"; VNull; VStr "text"] sample_store
    = Ok (VElement (VHost MDXCreateElement) (VRef cfg) [VStr "text"], h') ∧
    h' !! cfg = Some {[ "originalType" := VStr "p"; "mdxType" := VStr "p" ]}.
Proof.
  destruct (kt_without_props plain_host sample_store "p" VNull [VStr "text"]
              eq_refl)
    as (cfg & h' & Hrun & _ & Hcfg).
  exists cfg, h'. split; [exact Hrun|exact Hcfg].
Defined.

Lemma kt_passes_through_witness :
  M3905.kt plain_host [Heading; VRef 1; VStr "text"] sample_store
  = Ok (VElement Heading (VRef 1) [VStr "text"], sample_store).
Proof.
  apply (kt_passes_through plain_host sample_store Heading (VRef 1)
           [VStr "text"]).
  - reflexivity.
  - right. exists 1. split; reflexivity.
Defined.




Lemma provider_extends_witness :
  ∃ pv v h',
    M3905.Zo plain_host (VRef 0) (VRef 4) sample_store
    = Ok (VElement (VHost Provider) (VRef pv) [VStr "text"], h') ∧
    h' !! pv = Some {[ "value" := VRef v ]} ∧
    h' !! v = Some (sample_override ∪ sample_context).
Proof.
  destruct (provider_extends plain_host sample_store 0 4 1
              sample_context sample_provider sample_override
              eq_refl eq_refl eq_refl eq_refl)
    as (pv & v & h' & Hrun & Hpv & _ & Hv & _).
  exists pv, v, h'. repeat split; assumption.
Defined.

Lemma provider_without_components_witness :
  ∃ pv h',
    M3905.Zo plain_host (VRef 0) (VRef 2) sample_store
    = Ok (VElement (VHost Provider) (VRef pv) [VUndefined], h') ∧
    h' !! pv = Some {[ "value" := VRef 0 ]}.
Proof.
  destruct (provider_without_components plain_host sample_store 2
              (props_of_tag "p") (VRef 0) eq_refl eq_refl)
    as (pv & h' & Hrun & Hpv & _).
  exists pv, h'. split; assumption.
Defined.

Lemma provider_same_as_override_witness :
  ∃ pv v children h',
    M3905.Zo plain_host (VRef 0) (VRef 4) sample_store
    = Ok (VElement (VHost Provider) (VRef pv) children, h') ∧
    h' !! pv = Some {[ "value" := VRef v ]} ∧
    renderer_of (M3905.u plain_host (VRef v) (VRef 2) VNull h')
    = renderer_of (M3905.u plain_host (VRef 0) (VRef 3) VNull sample_store).
Proof.
  apply (provider_same_as_override plain_host sample_store 0 4 1 2 3
           sample_context sample_provider sample_override (props_of_tag "p")
           VNull); reflexivity.
Defined.

